(** * Verification of [main_app.py]: the product inventory application

    The development embeds the decision logic of [main_app.py] (a Flask
    application over one PostgreSQL relation, [produkter]) and proves the
    properties its specification states about it.

    Layout:
    - [PyStr]: the Python [str] methods and built-ins the code calls;
    - [parse_tags]: the tag normaliser;
    - [save_barcode_simple]: the barcode artifact resolver over a model of
      the static directory;
    - the relation [produkter] and the SQL statements issued against it;
    - the request handlers;
    - the theorems. *)

From Stdlib Require Import ZArith Ascii.
From stdpp Require Import base gmap strings pretty list sorting.

Set Warnings "-clear-no-such-hyp".

Local Open Scope Z_scope.

(** ** Python strings

    A Python [str] is modelled by [string], a character being a code point
    below 256 (the Latin-1 range).  The classifications below are the ones of
    CPython's Unicode database restricted to that range. *)
Module PyStr.

(** [ch.isspace()]: TAB, LF, VT, FF, CR, the separators FS, GS, RS, US,
    SPACE, NEL (0x85) and NO-BREAK SPACE (0xA0). *)
Definition isspace (c : ascii) : bool :=
  let n := N_of_ascii c in
  ((9 <=? n) && (n <=? 13) || (28 <=? n) && (n <=? 32)
   || (n =? 133) || (n =? 160))%N.

(** [ch.isdigit()]: the decimal digits and the superscripts 2, 3 and 1
    (0xB2, 0xB3, 0xB9), which Python counts as digits. *)
Definition isdigit (c : ascii) : bool :=
  let n := N_of_ascii c in
  ((48 <=? n) && (n <=? 57) || (n =? 178) || (n =? 179) || (n =? 185))%N.

(** The ten characters [int()] reads as decimal digits. *)
Definition isdecimal (c : ascii) : bool :=
  let n := N_of_ascii c in ((48 <=? n) && (n <=? 57))%N.

(** [ch.lower()]: A-Z and the Latin-1 capitals 0xC0-0xDE, the
    multiplication sign 0xD7 excepted. *)
Definition lower_char (c : ascii) : ascii :=
  let n := N_of_ascii c in
  if ((65 <=? n) && (n <=? 90)
      || (192 <=? n) && (n <=? 222) && negb (n =? 215))%N
  then ascii_of_N (n + 32) else c.

Fixpoint lower (s : string) : string :=
  match s with
  | EmptyString => EmptyString
  | String c r => String (lower_char c) (lower r)
  end.

Fixpoint lstrip (s : string) : string :=
  match s with
  | EmptyString => EmptyString
  | String c r => if isspace c then lstrip r else s
  end.

Fixpoint rstrip (s : string) : string :=
  match s with
  | EmptyString => EmptyString
  | String c r =>
      match rstrip r with
      | EmptyString => if isspace c then EmptyString else String c EmptyString
      | r' => String c r'
      end
  end.

(** [s.strip()] *)
Definition strip (s : string) : string := rstrip (lstrip s).

(** [s.split(sep)] for a one-character separator: never the empty list,
    the empty string gives one empty token. *)
Fixpoint split (sep : ascii) (s : string) : list string :=
  match s with
  | EmptyString => [EmptyString]
  | String c r =>
      if decide (c = sep) then EmptyString :: split sep r
      else match split sep r with
           | t :: ts => String c t :: ts
           | [] => [String c EmptyString]
           end
  end.

(** [sep.join(l)] *)
Fixpoint join (sep : string) (l : list string) : string :=
  match l with
  | [] => EmptyString
  | [x] => x
  | x :: r => x +:+ sep +:+ join sep r
  end.

(** ["".join(ch for ch in s if p(ch))] *)
Fixpoint keep (p : ascii → bool) (s : string) : string :=
  match s with
  | EmptyString => EmptyString
  | String c r => if p c then String c (keep p r) else keep p r
  end.

(** [s.replace(c, "")] for a one-character [c]. *)
Definition remove_char (c : ascii) (s : string) : string :=
  keep (λ x, negb (bool_decide (x = c))) s.

(** [s[:n]] *)
Fixpoint prefix (n : nat) (s : string) : string :=
  match n, s with
  | S n', String c r => String c (prefix n' r)
  | _, _ => EmptyString
  end.

(** Truth value of a string: non-empty. *)
Definition truthy (s : string) : bool :=
  match s with EmptyString => false | _ => true end.

(** Truth value of a string or [None]. *)
Definition truthy_opt (x : option string) : bool :=
  match x with
  | Some s => truthy s
  | None => false
  end.

(** [x or ''] for [x] a string or [None]. *)
Definition or_empty (x : option string) : string :=
  match x with
  | Some s => s
  | None => EmptyString
  end.

(** [list(dict.fromkeys(l))]: a dict keeps its keys in insertion order, and
    setting a key that is present leaves its position. *)
Definition dict_fromkeys (l : list string) : list string :=
  foldl (λ d k, if decide (k ∈ d) then d else d ++ [k]) [] l.

(** *** [int(s)] on a string

    Surrounding white space is dropped, one sign is allowed, then decimal
    digits, where single underscores may separate digits.  [None] stands
    for [ValueError].  (CPython's limit on the number of digits of a
    literal, 4300 by default, is outside the model.) *)

(** The white space [int()] skips around the number: TAB, LF, VT, FF, CR
    and SPACE, and of the characters from 0x80 on NEL and NO-BREAK SPACE.
    The separators 0x1C-0x1F, which [str.strip()] drops, are not among
    them: [int("\x1c5")] is a [ValueError]. *)
Definition isspace_int (c : ascii) : bool :=
  let n := N_of_ascii c in
  ((9 <=? n) && (n <=? 13) || (n =? 32) || (n =? 133) || (n =? 160))%N.

Fixpoint lstrip_by (p : ascii → bool) (s : string) : string :=
  match s with
  | EmptyString => EmptyString
  | String c r => if p c then lstrip_by p r else s
  end.

Fixpoint rstrip_by (p : ascii → bool) (s : string) : string :=
  match s with
  | EmptyString => EmptyString
  | String c r =>
      match rstrip_by p r with
      | EmptyString => if p c then EmptyString else String c EmptyString
      | r' => String c r'
      end
  end.

Definition digit_val (c : ascii) : Z := Z.of_N (N_of_ascii c) - 48.

(** [digits acc prev s]: [prev] tells whether the previous character was a
    digit (an underscore must stand between two digits). *)
Fixpoint digits (acc : Z) (prev : bool) (s : string) : option Z :=
  match s with
  | EmptyString => if prev then Some acc else None
  | String c r =>
      if isdecimal c then digits (10 * acc + digit_val c) true r
      else if bool_decide (c = "_"%char) && prev then
        match r with
        | String d _ => if isdecimal d then digits acc false r else None
        | EmptyString => None
        end
      else None
  end.

Definition int (s : string) : option Z :=
  match rstrip_by isspace_int (lstrip_by isspace_int s) with
  | String "-" r => Z.opp <$> digits 0 false r
  | String "+" r => digits 0 false r
  | r => digits 0 false r
  end.

End PyStr.

(** ** The tag normaliser *)

(** [parse_tags(raw)], [None] being Python's [None]. *)
Definition parse_tags (raw : option string) : option (list string) :=
  match raw with
  | None => None
  | Some raw =>
      let tags :=
        (λ t, PyStr.lower (PyStr.strip t))
          <$> filter (λ t, PyStr.strip t ≠ EmptyString) (PyStr.split "," raw) in
      Some (PyStr.dict_fromkeys tags)
  end.

(** ** Exceptions *)

Inductive exn : Type :=
  | CameraDisabled          (* RuntimeError("Camera is disabled in this environment") *)
  | MissingDatabaseConfig   (* RuntimeError of get_db_connection *)
  | OperationalError        (* psycopg2.connect could not reach the server *)
  | UniqueViolation         (* the unique index on product_ean *)
  | NameError (name : string)
  | BarcodeError.           (* raised by python-barcode *)

Inductive result (A : Type) : Type :=
  | Ok (a : A)
  | Raise (e : exn).
Arguments Ok {A} a.
Arguments Raise {A} e.

(** ** Configuration and external collaborators

    What [main_app.py] reads from its surroundings: the environment
    variables, whether the database server answers, which payloads
    python-barcode's [EAN13] accepts, and how a session at the camera ends. *)

(** The end of [read_barcode_from_camera] past its flag check.  As the file
    stands the session raises: the name [camera_adr] is bound nowhere. *)
Inductive Scan : Type :=
  | scan_raises (e : exn)
  | scan_returns (found_text : option string).

(** The end of [capture_photo_interactive_to_static] past [ensure_dirs].
    [capture_unbound] is the case of the file as it stands: [cv2] is imported
    inside [read_barcode_from_camera] only, so the name is unbound here and
    the call raises before a device is opened. *)
Inductive Capture : Type :=
  | capture_unbound
  | capture_none        (* no device, cancelled, or the image was not written *)
  | capture_written.    (* a frame was captured and written *)

Record Env : Type := {
  ENABLE_CAMERA : bool;
  DATABASE_URL : option string;
  DATABASE_HOST : option string;
  server_up : bool;
  ean13_accepts : string → bool;
  scan_session : Scan;
  capture_session : Capture;
}.

(** ** The static directory *)

(** [files]: the paths that exist; [renders]: the payloads handed to
    [EAN13(...).save], latest first. *)
Record Disk : Type := {
  files : gset string;
  renders : list string;
}.

Definition static_folder : string := "static".

(** [os.path.join(a, b)] for a relative [b]. *)
Definition path_join (a b : string) : string := a +:+ "/" +:+ b.

(** [os.makedirs(p, exist_ok=True)] *)
Definition makedirs (p : string) (d : Disk) : Disk :=
  {| files := {[p]} ∪ files d; renders := renders d |}.

(** [os.path.exists(p)] *)
Definition path_exists (p : string) (d : Disk) : bool := bool_decide (p ∈ files d).

(** [EAN13(data12, writer=ImageWriter()).save(target)]: python-barcode
    writes [target + ".png"], or raises on a payload it does not accept. *)
Definition ean13_save (env : Env) (data12 target : string) (d : Disk)
    : Disk * result unit :=
  if ean13_accepts env data12 then
    ({| files := {[target +:+ ".png"]} ∪ files d;
        renders := data12 :: renders d |}, Ok ())
  else (d, Raise BarcodeError).

(** The digits of the input, as [save_barcode_simple] computes them. *)
Definition clean_ean (ean_number : string) : string :=
  let clean := PyStr.remove_char "." (PyStr.strip ean_number) in
  PyStr.keep PyStr.isdigit clean.

Definition save_barcode_simple (env : Env) (ean_number : string) (d : Disk)
    : Disk * result (option string) :=
  let clean := clean_ean ean_number in
  if (String.length clean <? 12)%nat then (d, Ok None)
  else
    let out_dir := path_join static_folder "barcodes" in
    let d := makedirs out_dir d in
    let base := "barcode " +:+ clean in
    let png_path := path_join out_dir (base +:+ ".png") in
    if path_exists png_path d then
      (d, Ok (Some ("barcodes/" +:+ base +:+ ".png")))
    else
      let data12 := PyStr.prefix 12 clean in
      match ean13_save env data12 (path_join out_dir base) d with
      | (d, Ok _) => (d, Ok (Some ("barcodes/" +:+ base +:+ ".png")))
      | (d, Raise e) => (d, Raise e)
      end.

Definition ensure_dirs (d : Disk) : Disk :=
  makedirs (path_join static_folder "product_img")
    (makedirs (path_join static_folder "barcodes") d).

(** ** The relation [produkter] *)

(** Modelled from the spec: the declaration of the table is not in the
    source.  The columns are the ones the statements name; [product_id] is
    generated from a sequence, [stock_qty] is an integer that starts at 0
    (the range of the column type is outside the model),
    [product_image] and [tags] may be NULL ([None]).  [ON CONFLICT
    (product_ean)] needs a unique index on [product_ean], so the relation
    has one. *)
Record Product : Type := {
  product_id : Z;
  product_ean : string;
  product_name : string;
  product_desc : string;
  product_image : option string;
  stock_qty : Z;
  tags : option (list string);
}.

Definition set_stock_qty (q : Z) (r : Product) : Product :=
  {| product_id := product_id r; product_ean := product_ean r;
     product_name := product_name r; product_desc := product_desc r;
     product_image := product_image r; stock_qty := q; tags := tags r |}.

Definition set_product_image (img : option string) (r : Product) : Product :=
  {| product_id := product_id r; product_ean := product_ean r;
     product_name := product_name r; product_desc := product_desc r;
     product_image := img; stock_qty := stock_qty r; tags := tags r |}.

(** The [SET] list of the edit statement. *)
Definition set_fields (ean name desc : string) (tgs : option (list string))
    (r : Product) : Product :=
  {| product_id := product_id r; product_ean := ean;
     product_name := name; product_desc := desc;
     product_image := product_image r; stock_qty := stock_qty r; tags := tgs |}.

(** [COALESCE(a, b)] *)
Definition coalesce {A} (a b : option A) : option A :=
  match a with
  | Some _ => a
  | None => b
  end.

(** [NULLIF(t, '{}'::text[])] on a non-NULL array. *)
Definition nullif_empty (t : list string) : option (list string) :=
  match t with
  | [] => None
  | _ => Some t
  end.

(** The [DO UPDATE SET] list of the upsert: [excluded] is the proposed row. *)
Definition merge_excluded (name desc : string) (image : option string)
    (tgs : list string) (r : Product) : Product :=
  {| product_id := product_id r; product_ean := product_ean r;
     product_name := name; product_desc := desc;
     product_image := coalesce image (product_image r);
     stock_qty := stock_qty r;
     tags := coalesce (nullif_empty tgs) (tags r) |}.

(** [UPDATE produkter SET ... WHERE product_id = pid] *)
Definition update_where_id (pid : Z) (f : Product → Product)
    (rows : list Product) : list Product :=
  (λ r, if decide (product_id r = pid) then f r else r) <$> rows.

(** [SELECT ... WHERE product_id = pid] and [fetchone()] *)
Definition find_by_id (pid : Z) (rows : list Product) : option Product :=
  head (filter (λ r, product_id r = pid) rows).

(** [SELECT ... WHERE product_ean = ean] and [fetchone()] *)
Definition find_by_ean (ean : string) (rows : list Product) : option Product :=
  head (filter (λ r, product_ean r = ean) rows).

(** [UPDATE produkter SET stock_qty = stock_qty + delta WHERE product_id = pid] *)
Definition update_quantity_delta (pid delta : Z) (rows : list Product)
    : list Product :=
  update_where_id pid (λ r, set_stock_qty (stock_qty r + delta) r) rows.

(** [UPDATE produkter SET stock_qty = qty WHERE product_id = pid] *)
Definition update_quantity_absolute (pid qty : Z) (rows : list Product)
    : list Product :=
  update_where_id pid (set_stock_qty qty) rows.

(** [UPDATE produkter SET product_image = path WHERE product_id = pid] *)
Definition update_image (pid : Z) (path : string) (rows : list Product)
    : list Product :=
  update_where_id pid (set_product_image (Some path)) rows.

(** Another row than [pid] holds [ean]. *)
Definition ean_taken (pid : Z) (ean : string) (rows : list Product) : bool :=
  existsb (λ r, bool_decide (product_id r ≠ pid) && bool_decide (product_ean r = ean))
    rows.

(** The edit statement.  The unique index on [product_ean] rejects the
    statement when it would give the row an EAN that another row holds. *)
Definition update_fields (pid : Z) (ean name desc : string)
    (tgs : option (list string)) (rows : list Product)
    : result (list Product) :=
  if bool_decide (is_Some (find_by_id pid rows)) && ean_taken pid ean rows
  then Raise UniqueViolation
  else Ok (update_where_id pid (set_fields ean name desc tgs) rows).

(** ** The state of the application *)

Record World : Type := {
  produkter : list Product;
  product_id_seq : Z;        (* the next value of the sequence of product_id *)
  static : Disk;
  camera_opened : nat;       (* how many times a camera device was opened *)
}.

Definition with_produkter (rows : list Product) (w : World) : World :=
  {| produkter := rows; product_id_seq := product_id_seq w;
     static := static w; camera_opened := camera_opened w |}.

Definition with_static (d : Disk) (w : World) : World :=
  {| produkter := produkter w; product_id_seq := product_id_seq w;
     static := d; camera_opened := camera_opened w |}.

Definition open_camera (w : World) : World :=
  {| produkter := produkter w; product_id_seq := product_id_seq w;
     static := static w; camera_opened := S (camera_opened w) |}.

(** The upsert statement with [RETURNING product_id].  The sequence
    advances in both cases: the default of [product_id] is computed for the
    proposed row before the index is consulted. *)
Definition upsert_by_ean (ean name desc : string) (image : option string)
    (tgs : list string) (w : World) : World * Z :=
  let new_id := product_id_seq w in
  let advance rows :=
    {| produkter := rows; product_id_seq := new_id + 1;
       static := static w; camera_opened := camera_opened w |} in
  match find_by_ean ean (produkter w) with
  | Some old =>
      (advance ((λ r, if decide (product_ean r = ean)
                      then merge_excluded name desc image tgs r else r)
                <$> produkter w),
       product_id old)
  | None =>
      (advance (produkter w ++
                [ {| product_id := new_id; product_ean := ean;
                     product_name := name; product_desc := desc;
                     product_image := image; stock_qty := 0;
                     tags := Some tgs |} ]),
       new_id)
  end.

(** ** Requests and responses *)

Inductive Method : Type := GET | POST.

Record Request : Type := {
  method : Method;
  args : gmap string string;     (* request.args *)
  form : gmap string string;     (* request.form *)
}.

Inductive Url : Type :=
  | url_products_list
  | url_products_detail (pid : Z)
  | url_products_create (ean : string) (img : option string).

(** The messages the handlers put on a page. *)
Inductive Message : Type :=
  | DB_fejl (e : exn)
  | Databasefejl (e : exn)
  | Databasefejl_ved_hentning (e : exn)
  | Databasefejl_ved_opdatering (e : exn)
  | Foto_annulleret_eller_mislykkedes
  | Mangler_EAN_til_foto
  | EAN_og_navn_skal_udfyldes
  | Produkt_ikke_fundet
  | Ingen_stregkode_fundet
  | Ugyldig_EAN_for_kort.

Inductive Mode : Type := create | edit.

(** What a handler renders. *)
Inductive Response : Type :=
  | redirect (target : Url)                          (* redirect.html *)
  | product_detail (error : option Message)          (* product_detail.html *)
  | product_form (mode : Mode) (error : option Message).   (* product_form.html *)

(** ** Database connection *)

Definition psycopg2_connect (env : Env) : result unit :=
  if server_up env then Ok () else Raise OperationalError.

Definition get_db_connection (env : Env) : result unit :=
  if PyStr.truthy_opt (DATABASE_URL env) then psycopg2_connect env
  else if negb (PyStr.truthy_opt (DATABASE_HOST env)) then Raise MissingDatabaseConfig
  else psycopg2_connect env.

(** ** Camera helpers *)

Definition read_barcode_from_camera (env : Env) (w : World)
    : World * result (option string) :=
  if negb (ENABLE_CAMERA env) then (w, Raise CameraDisabled)
  else
    match scan_session env with
    | scan_raises e => (w, Raise e)
    | scan_returns found_text => (open_camera w, Ok found_text)
    end.

Definition capture_photo_interactive_to_static (env : Env) (basename : string)
    (w : World) : World * result (option string) :=
  let w := with_static (ensure_dirs (static w)) w in
  match capture_session env with
  | capture_unbound => (w, Raise (NameError "cv2"))
  | capture_none => (open_camera w, Ok None)
  | capture_written =>
      let rel_path := "product_img/" +:+ basename +:+ ".jpg" in
      let abs_path := path_join static_folder rel_path in
      let d := static w in
      (open_camera
         (with_static {| files := {[abs_path]} ∪ files d; renders := renders d |} w),
       Ok (Some rel_path))
  end.

(** ** Request handlers

    A handler maps the state to the new state and either a response or the
    exception that leaves it uncaught. *)

(** [int(request.form.get(key, default))] under [except ValueError: fallback] *)
Definition int_field (fields : gmap string string) (key : string)
    (default fallback : Z) : Z :=
  match fields !! key with
  | None => default
  | Some s =>
      match PyStr.int s with
      | Some n => n
      | None => fallback
      end
  end.

(** [(fields.get(key) or '').strip()] *)
Definition text_field (fields : gmap string string) (key : string) : string :=
  PyStr.strip (PyStr.or_empty (fields !! key)).

Definition products_qty_add (env : Env) (product_id : Z) (req : Request)
    (w : World) : World * result Response :=
  let delta := int_field (form req) "delta" 1 0 in
  match get_db_connection env with
  | Raise e => (w, Ok (product_detail (Some (DB_fejl e))))
  | Ok _ =>
      (with_produkter (update_quantity_delta product_id delta (produkter w)) w,
       Ok (redirect (url_products_detail product_id)))
  end.

Definition products_qty_set (env : Env) (product_id : Z) (req : Request)
    (w : World) : World * result Response :=
  let new_qty :=
    match form req !! "qty" with
    | None => 0
    | Some s =>
        match PyStr.int s with
        | Some n => if n <? 0 then 0 else n
        | None => 0
        end
    end in
  match get_db_connection env with
  | Raise e => (w, Ok (product_detail (Some (DB_fejl e))))
  | Ok _ =>
      (with_produkter (update_quantity_absolute product_id new_qty (produkter w)) w,
       Ok (redirect (url_products_detail product_id)))
  end.

Definition products_scan_increment (env : Env) (req : Request) (w : World)
    : World * result Response :=
  if negb (ENABLE_CAMERA env) then (w, Ok (redirect url_products_list))
  else
    let delta := int_field (args req) "delta" 1 1 in
    match read_barcode_from_camera env w with
    | (w, Raise e) => (w, Raise e)
    | (w, Ok ean) =>
        if negb (PyStr.truthy_opt ean) then (w, Ok (redirect url_products_list))
        else
          let clean := PyStr.keep PyStr.isdigit (PyStr.or_empty ean) in
          if (String.length clean <? 12)%nat
          then (w, Ok (redirect url_products_list))
          else
            (* try: save_barcode_simple(clean) except Exception: pass *)
            let w := with_static (save_barcode_simple env clean (static w)).1 w in
            match get_db_connection env with
            | Raise _ => (w, Ok (redirect url_products_list))
            | Ok _ =>
                match find_by_ean clean (produkter w) with
                | Some row =>
                    let pid := product_id row in
                    (with_produkter
                       (update_quantity_delta pid delta (produkter w)) w,
                     Ok (redirect (url_products_detail pid)))
                | None =>
                    (w, Ok (redirect (url_products_create clean None)))
                end
            end
    end.

Definition products_photo_edit (env : Env) (product_id : Z) (req : Request)
    (w : World) : World * result Response :=
  match get_db_connection env with
  | Raise e => (w, Ok (product_detail (Some (Databasefejl_ved_hentning e))))
  | Ok _ =>
      let ean :=
        match find_by_id product_id (produkter w) with
        | Some row => Some (PyStr.strip (product_ean row))
        | None => None
        end in
      let base :=
        if PyStr.truthy_opt ean then "product_" +:+ PyStr.or_empty ean
        else "product_id_" +:+ pretty product_id in
      match capture_photo_interactive_to_static env base w with
      | (w, Raise e) => (w, Raise e)
      | (w, Ok None) =>
          (w, Ok (product_detail (Some Foto_annulleret_eller_mislykkedes)))
      | (w, Ok (Some img_rel)) =>
          if negb (PyStr.truthy img_rel)
          then (w, Ok (product_detail (Some Foto_annulleret_eller_mislykkedes)))
          else
            match get_db_connection env with
            | Raise e =>
                (w, Ok (product_detail (Some (Databasefejl_ved_opdatering e))))
            | Ok _ =>
                (with_produkter (update_image product_id img_rel (produkter w)) w,
                 Ok (redirect (url_products_detail product_id)))
            end
      end
  end.

Definition products_photo_new (env : Env) (req : Request) (w : World)
    : World * result Response :=
  let ean := text_field (args req) "ean" in
  if negb (PyStr.truthy ean)
  then (w, Ok (product_form create (Some Mangler_EAN_til_foto)))
  else
    match capture_photo_interactive_to_static env ("product_" +:+ ean) w with
    | (w, Raise e) => (w, Raise e)
    | (w, Ok None) =>
        (w, Ok (product_form create (Some Foto_annulleret_eller_mislykkedes)))
    | (w, Ok (Some img_rel)) =>
        if negb (PyStr.truthy img_rel)
        then (w, Ok (product_form create (Some Foto_annulleret_eller_mislykkedes)))
        else (w, Ok (redirect (url_products_create ean (Some img_rel))))
    end.

Definition products_create (env : Env) (req : Request) (w : World)
    : World * result Response :=
  match method req with
  | GET => (w, Ok (product_form create None))
  | POST =>
      let product_ean :=
        PyStr.keep PyStr.isdigit (text_field (form req) "product_ean") in
      let product_name := text_field (form req) "product_name" in
      let product_desc := text_field (form req) "product_desc" in
      let product_image :=
        let s := text_field (form req) "product_image" in
        if PyStr.truthy s then Some s else None in
      let tags_raw := form req !! "tags" in
      let tags_list := default [] (parse_tags tags_raw) in
      if negb (PyStr.truthy product_ean) || negb (PyStr.truthy product_name)
      then (w, Ok (product_form create (Some EAN_og_navn_skal_udfyldes)))
      else
        match get_db_connection env with
        | Raise e => (w, Ok (product_form create (Some (Databasefejl e))))
        | Ok _ =>
            let '(w, new_id) :=
              upsert_by_ean product_ean product_name product_desc
                product_image tags_list w in
            (w, Ok (redirect (url_products_detail new_id)))
        end
  end.

Definition products_scan (env : Env) (req : Request) (w : World)
    : World * result Response :=
  if negb (ENABLE_CAMERA env) then (w, Ok (redirect url_products_list))
  else
    match read_barcode_from_camera env w with
    | (w, Raise e) => (w, Raise e)
    | (w, Ok ean) =>
        if negb (PyStr.truthy_opt ean)
        then (w, Ok (product_form create (Some Ingen_stregkode_fundet)))
        else
          let clean := PyStr.keep PyStr.isdigit (PyStr.or_empty ean) in
          if (String.length clean <? 12)%nat
          then (w, Ok (product_form create (Some Ugyldig_EAN_for_kort)))
          else
            match save_barcode_simple env clean (static w) with
            | (d, Raise e) => (with_static d w, Raise e)
            | (d, Ok _) =>
                (with_static d w, Ok (redirect (url_products_create clean None)))
            end
    end.

Definition products_edit (env : Env) (product_id : Z) (req : Request)
    (w : World) : World * result Response :=
  (* hent eksisterende *)
  let '(product, error) :=
    match get_db_connection env with
    | Raise e => (None, Some (Databasefejl e))
    | Ok _ => (find_by_id product_id (produkter w), None)
    end in
  match product with
  | None => (w, Ok (product_form edit (Some (default Produkt_ikke_fundet error))))
  | Some product =>
      match method req with
      | GET => (w, Ok (product_form edit error))
      | POST =>
          let product_ean := text_field (form req) "product_ean" in
          let product_name := text_field (form req) "product_name" in
          let product_desc := text_field (form req) "product_desc" in
          let tags_raw := form req !! "tags" in
          let tags_list := parse_tags tags_raw in
          let tags_param :=
            match tags_list with
            | None => tags product
            | Some l => Some l
            end in
          match get_db_connection env with
          | Raise e => (w, Ok (product_form edit (Some (Databasefejl e))))
          | Ok _ =>
              match update_fields product_id product_ean product_name
                      product_desc tags_param (produkter w) with
              | Raise e => (w, Ok (product_form edit (Some (Databasefejl e))))
              | Ok rows =>
                  (with_produkter rows w,
                   Ok (redirect (url_products_detail product_id)))
              end
          end
      end
  end.

(** ** Delete, list, detail and search *)

(** [DELETE FROM produkter WHERE product_id = pid] *)
Definition delete_product (pid : Z) (rows : list Product) : list Product :=
  filter (λ r, product_id r ≠ pid) rows.

Definition products_delete (env : Env) (product_id : Z) (req : Request)
    (w : World) : World * result Response :=
  match get_db_connection env with
  | Raise e => (w, Ok (product_detail (Some (Databasefejl e))))
  | Ok _ =>
      (with_produkter (delete_product product_id (produkter w)) w,
       Ok (redirect url_products_list))
  end.

(** [ORDER BY product_id] (ascending). *)
Definition id_le (a b : Product) : Prop := product_id a ≤ product_id b.

#[global] Instance id_le_dec : RelDecision id_le.
Proof. intros a b. unfold id_le. apply _. Defined.

Definition order_by_product_id (rows : list Product) : list Product :=
  merge_sort id_le rows.

(** The five columns the list and the tag search select. *)
Record Listing : Type := {
  listing_id : Z;
  listing_ean : string;
  listing_name : string;
  listing_desc : string;
  listing_stock_qty : Z;
}.

Definition listing (r : Product) : Listing :=
  {| listing_id := product_id r; listing_ean := product_ean r;
     listing_name := product_name r; listing_desc := product_desc r;
     listing_stock_qty := stock_qty r |}.

(** [SELECT ... FROM produkter ORDER BY product_id ASC] *)
Definition list_all (rows : list Product) : list Listing :=
  listing <$> order_by_product_id rows.

(** [tags && terms::text[]]: the arrays share an element; NULL tags never
    match. *)
Definition overlaps (tgs : option (list string)) (terms : list string) : bool :=
  match tgs with
  | Some l => bool_decide (Exists (λ t, t ∈ terms) l)
  | None => false
  end.

(** [SELECT ... FROM produkter WHERE tags && terms ORDER BY product_id] *)
Definition find_by_tags_any (terms : list string) (rows : list Product)
    : list Listing :=
  listing <$> order_by_product_id (filter (λ r, overlaps (tags r) terms) rows).

(** What [products.html] is rendered with. *)
Inductive ListPage : Type :=
  | products_page (rows : list Listing) (error : option Message).

Definition products_list (env : Env) (w : World) : World * result ListPage :=
  match get_db_connection env with
  | Raise e => (w, Ok (products_page [] (Some (Databasefejl e))))
  | Ok _ => (w, Ok (products_page (list_all (produkter w)) None))
  end.

(** The directory of the barcode images. *)
Definition barcode_dir : string := path_join static_folder "barcodes".

(** What [product_detail.html] is rendered with by [products_detail]. *)
Inductive DetailPage : Type :=
  | detail_page (product : option Product) (image_url : option string)
      (error : option Message).

Definition products_detail (env : Env) (product_id : Z) (w : World)
    : World * result DetailPage :=
  match get_db_connection env with
  | Raise e => (w, Ok (detail_page None None (Some (Databasefejl e))))
  | Ok _ =>
      let product := find_by_id product_id (produkter w) in
      let image_url :=
        match product with
        | Some p =>
            if PyStr.truthy (product_ean p) then
              let fname := "barcode " +:+ product_ean p +:+ ".png" in
              if path_exists (path_join barcode_dir fname) (static w)
              then Some ("barcodes/" +:+ fname) else None
            else None
        | None => None
        end in
      (w, Ok (detail_page product image_url None))
  end.

(** [s.isdigit()]: at least one character, and all of them digits. *)
Fixpoint all_chars (p : ascii → bool) (s : string) : bool :=
  match s with
  | EmptyString => true
  | String c r => p c && all_chars p r
  end.

Definition str_isdigit (s : string) : bool :=
  PyStr.truthy s && all_chars PyStr.isdigit s.

(** The first of the candidate file names that exists in the barcode
    directory, as the [filename] handed to [url_for('static', ...)]. *)
Fixpoint first_existing (candidates : list string) (d : Disk) : option string :=
  match candidates with
  | [] => None
  | fname :: rest =>
      if path_exists (path_join barcode_dir fname) d
      then Some ("barcodes/" +:+ fname)
      else first_existing rest d
  end.

(** The messages of the search page. *)
Inductive SearchMessage : Type :=
  | Search_databasefejl (e : exn)
  | Search_databasefejl_ValueError     (* int() refused the id *)
  | Indtast_mindst_et_gyldigt_tag
  | Indtast_enten_id_eller_tags.

Inductive SearchResponse : Type :=
  | search_page (product : option Product) (image_url : option string)
      (error : option SearchMessage)                     (* search.html *)
  | search_results (rows : list Listing).                (* products.html *)

(** The terms of a tag query: trimmed, lower-cased, non-empty; duplicates
    stay. *)
Definition search_terms (tags_q : string) : list string :=
  (λ t, PyStr.lower (PyStr.strip t))
    <$> filter (λ t, PyStr.strip t ≠ EmptyString) (PyStr.split "," tags_q).

Definition search (env : Env) (req : Request) (w : World)
    : World * result SearchResponse :=
  match method req with
  | GET => (w, Ok (search_page None None None))
  | POST =>
      let product_id := text_field (form req) "product_id" in
      let tags_q := text_field (form req) "tags" in
      if str_isdigit product_id then
        match get_db_connection env with
        | Raise e => (w, Ok (search_page None None (Some (Search_databasefejl e))))
        | Ok _ =>
            match PyStr.int product_id with
            | None =>
                (w, Ok (search_page None None (Some Search_databasefejl_ValueError)))
            | Some pid =>
                let product := find_by_id pid (produkter w) in
                let image_url :=
                  match product with
                  | Some p =>
                      if PyStr.truthy (product_ean p) then
                        let ean := PyStr.keep PyStr.isdigit (product_ean p) in
                        first_existing
                          ["barcode " +:+ ean +:+ ".png";
                           "barcode " +:+ ean +:+ ".svg"] (static w)
                      else None
                  | None => None
                  end in
                (w, Ok (search_page product image_url None))
            end
        end
      else if PyStr.truthy tags_q then
        let terms := search_terms tags_q in
        match terms with
        | [] => (w, Ok (search_page None None (Some Indtast_mindst_et_gyldigt_tag)))
        | _ =>
            match get_db_connection env with
            | Raise e =>
                (w, Ok (search_page None None (Some (Search_databasefejl e))))
            | Ok _ => (w, Ok (search_results (find_by_tags_any terms (produkter w))))
            end
        end
      else (w, Ok (search_page None None (Some Indtast_enten_id_eller_tags)))
  end.

(** ** Vocabulary of the statements *)
Module Spec.
Import PyStr.

(** The first occurrence of each key, in the order of the list: the
    reading of "duplicates removed, first occurrence wins" that
    [dict_fromkeys] is compared with. *)
Fixpoint dedup_first (l : list string) : list string :=
  match l with
  | [] => []
  | x :: r => x :: filter (λ y, y ≠ x) (dedup_first r)
  end.

(** [c] occurs in [s]. *)
Fixpoint occurs (c : ascii) (s : string) : Prop :=
  match s with
  | EmptyString => False
  | String d r => c = d ∨ occurs c r
  end.

(** All characters of [s] are white space. *)
Fixpoint blank (s : string) : bool :=
  match s with
  | EmptyString => true
  | String c r => isspace c && blank r
  end.

Definition head (s : string) : option ascii :=
  match s with
  | EmptyString => None
  | String c _ => Some c
  end.

Fixpoint last (s : string) : option ascii :=
  match s with
  | EmptyString => None
  | String c EmptyString => Some c
  | String _ r => last r
  end.

(** Neither the first nor the last character is white space. *)
Definition trimmed (s : string) : Prop :=
  (∀ c, head s = Some c → isspace c = false)
  ∧ (∀ c, last s = Some c → isspace c = false).

(** The trimmed, lower-cased, non-empty comma-separated tokens of [raw], in
    the order of the input. *)
Definition normalized_tokens (raw : string) : list string :=
  filter (λ t, t ≠ EmptyString) ((λ t, lower (strip t)) <$> split "," raw).

End Spec.

(** ** Statements and examples *)

(** C6, as the specification words it: the name of the artifact is a
    function of the first 12 digits of the cleaned input. *)
Definition named_from_first_12 (env : Env) : Prop :=
  ∀ (s1 s2 : string) (d d1 d2 : Disk) (p1 p2 : string),
    (12 ≤ String.length (clean_ean s1))%nat →
    (12 ≤ String.length (clean_ean s2))%nat →
    PyStr.prefix 12 (clean_ean s1) = PyStr.prefix 12 (clean_ean s2) →
    save_barcode_simple env s1 d = (d1, Ok (Some p1)) →
    save_barcode_simple env s2 d = (d2, Ok (Some p2)) →
    p1 = p2.

(** The table is well formed: the ids are distinct (primary key), the EANs
    are distinct (unique index), and every id was drawn from the sequence. *)
Definition wf_table (w : World) : Prop :=
  NoDup (product_id <$> produkter w)
  ∧ NoDup (product_ean <$> produkter w)
  ∧ Forall (λ r, product_id r < product_id_seq w) (produkter w).

(** An environment for the examples: the database is configured and up,
    the camera flag is off, [EAN13] accepts payloads of twelve decimal
    digits, and the camera names are unbound as in the file. *)
Definition sample_env : Env :=
  {| ENABLE_CAMERA := false;
     DATABASE_URL := Some "postgresql://localhost/lager";
     DATABASE_HOST := None;
     server_up := true;
     ean13_accepts := λ s, bool_decide (String.length s = 12%nat)
                            && bool_decide (PyStr.keep PyStr.isdecimal s = s);
     scan_session := scan_raises (NameError "camera_adr");
     capture_session := capture_unbound |}.

Definition empty_disk : Disk := {| files := ∅; renders := [] |}.

Definition cola : Product :=
  {| product_id := 1; product_ean := "5701234567890";
     product_name := "Cola"; product_desc := "1.5 l";
     product_image := Some "product_img/product_5701234567890.jpg";
     stock_qty := 0; tags := Some ["cola"; "1.5l"] |}.

Definition kiks : Product :=
  {| product_id := 2; product_ean := "5709876543210";
     product_name := "Kiks"; product_desc := "";
     product_image := None; stock_qty := 4; tags := Some ["kiks"] |}.

Definition sample_world : World :=
  {| produkter := [cola; kiks]; product_id_seq := 3;
     static := empty_disk; camera_opened := 0 |}.

(** A POST request with the given form fields. *)
Definition post (fields : list (string * string)) : Request :=
  {| method := POST; args := ∅; form := list_to_map fields |}.

(** A second create of Cola's EAN: new name and description, no image, a
    blank tags field. *)
Definition create_again : Request :=
  post [("product_ean", "5701234567890"); ("product_name", "Cola Zero");
        ("product_desc", "33 cl"); ("tags", " ")].

(** An edit of Cola with a blank tags field. *)
Definition edit_blank_tags : Request :=
  post [("product_ean", "5701234567890"); ("product_name", "Cola");
        ("product_desc", "1.5 l"); ("tags", "")].

(** An edit of Cola without a tags field. *)
Definition edit_no_tags : Request :=
  post [("product_ean", "5701234567890"); ("product_name", "Coca-Cola");
        ("product_desc", "1.5 l")].

(** A GET request with the given query arguments. *)
Definition get (query : list (string * string)) : Request :=
  {| method := GET; args := list_to_map query; form := ∅ |}.

(** An environment without database configuration: [DATABASE_URL] is not
    set and [DATABASE_HOST] is empty. *)
Definition unconfigured_env : Env :=
  {| ENABLE_CAMERA := false;
     DATABASE_URL := None;
     DATABASE_HOST := Some "";
     server_up := true;
     ean13_accepts := ean13_accepts sample_env;
     scan_session := scan_raises (NameError "camera_adr");
     capture_session := capture_unbound |}.

(** An environment where [cv2] resolves and the capture writes a photo. *)
Definition studio_env : Env :=
  {| ENABLE_CAMERA := true;
     DATABASE_URL := None;
     DATABASE_HOST := Some "db.local";
     server_up := true;
     ean13_accepts := ean13_accepts sample_env;
     scan_session := scan_raises (NameError "camera_adr");
     capture_session := capture_written |}.

(** A first create of a product that is not in the sample table. *)
Definition create_fanta : Request :=
  post [("product_ean", " 57-0555 0000 123 "); ("product_name", " Fanta ");
        ("product_desc", "Appelsin"); ("tags", "Sodavand, sodavand ,FANTA")].

(** ** Facts about the string operations *)
Module PyStrFacts.
Import PyStr Spec.

(** A property of one character, settled by running through the 256 of them. *)
Ltac by_ascii_cases c :=
  destruct c as [[] [] [] [] [] [] [] []]; vm_compute; intros; congruence.

Lemma split_not_nil sep s : split sep s ≠ [].
Proof.
  destruct s as [|c r]; simpl; [done|].
  case_decide; [done|]. by destruct (split sep r).
Qed.

Lemma join_cons sep x y l :
  join sep (x :: y :: l) = x +:+ sep +:+ join sep (y :: l).
Proof. reflexivity. Qed.

(** Joining the tokens with the separator gives the string back. *)
Lemma join_split sep s : join (String sep EmptyString) (split sep s) = s.
Proof.
  induction s as [|c r IH]; simpl; [done|].
  case_decide as Hc.
  - subst c. pose proof (split_not_nil sep r) as Hne.
    destruct (split sep r) as [|t ts] eqn:E; [done|].
    rewrite join_cons, IH. reflexivity.
  - pose proof (split_not_nil sep r) as Hne.
    destruct (split sep r) as [|t ts] eqn:E; [done|].
    destruct ts as [|u us].
    + simpl in *. by rewrite IH.
    + rewrite join_cons in *. rewrite <- IH. reflexivity.
Qed.

(** No token holds the separator. *)
Lemma split_no_sep sep s t : t ∈ split sep s → ¬ occurs sep t.
Proof.
  revert t. induction s as [|c r IH]; simpl; intros t Ht.
  - apply list_elem_of_singleton in Ht. subst t. simpl. tauto.
  - case_decide as Hc.
    + apply elem_of_cons in Ht as [->|Ht]; [simpl; tauto|by apply IH].
    + pose proof (split_not_nil sep r) as Hne.
      destruct (split sep r) as [|u us] eqn:E; [done|].
      apply elem_of_cons in Ht as [->|Ht].
      * simpl. intros [Heq|Hu]; [congruence|].
        revert Hu. apply IH. left.
      * apply IH. by right.
Qed.

Lemma rstrip_empty s : rstrip s = EmptyString ↔ blank s = true.
Proof.
  induction s as [|c r IH]; simpl; [done|].
  destruct (rstrip r) eqn:E.
  - destruct (isspace c); simpl; [tauto|].
    split; [done|]. intros []%Is_true_true.
  - split; [done|]. intros [_ Hb]%andb_true_iff. apply IH in Hb. done.
Qed.

Lemma lstrip_blank s : blank (lstrip s) = blank s.
Proof.
  induction s as [|c r IH]; simpl; [done|].
  destruct (isspace c) eqn:E; simpl; [done|]. by rewrite E.
Qed.

(** A string strips to the empty string exactly when it is blank. *)
Lemma strip_empty s : strip s = EmptyString ↔ blank s = true.
Proof. unfold strip. by rewrite rstrip_empty, lstrip_blank. Qed.

Lemma lower_empty s : lower s = EmptyString ↔ s = EmptyString.
Proof. by destruct s. Qed.

(** *** [dict_fromkeys] *)

Lemma fromkeys_acc (l acc : list string) :
  foldl (λ d k, if decide (k ∈ d) then d else d ++ [k]) acc l
  = acc ++ filter (λ y, y ∉ acc) (dedup_first l).
Proof.
  revert acc. induction l as [|x r IH]; intros acc; simpl.
  - by rewrite filter_nil, app_nil_r.
  - case_decide as Hx.
    + rewrite IH, filter_cons_False by tauto.
      rewrite list_filter_filter. f_equal.
      apply list_filter_iff. intros y. split; [|tauto].
      intros Hy. split; [done|]. by intros ->.
    + rewrite IH, filter_cons_True by done.
      rewrite <- app_assoc. simpl. do 2 f_equal.
      rewrite list_filter_filter. apply list_filter_iff. intros y.
      rewrite elem_of_app, list_elem_of_singleton. tauto.
Qed.

(** [dict_fromkeys] keeps the first occurrence of each key. *)
Lemma dict_fromkeys_dedup l : dict_fromkeys l = dedup_first l.
Proof.
  unfold dict_fromkeys. rewrite fromkeys_acc. simpl.
  induction (dedup_first l) as [|y ys IH]; [done|].
  rewrite filter_cons_True, IH; [done|]. apply not_elem_of_nil.
Qed.

Lemma elem_of_dedup_first l x : x ∈ dedup_first l ↔ x ∈ l.
Proof.
  induction l as [|y r IH]; simpl; [done|].
  rewrite !elem_of_cons, list_elem_of_filter, IH.
  destruct (decide (x = y)); tauto.
Qed.

Lemma NoDup_dedup_first l : NoDup (dedup_first l).
Proof.
  induction l as [|y r IH]; simpl; [constructor|].
  apply NoDup_cons. split.
  - rewrite list_elem_of_filter. tauto.
  - by apply NoDup_filter.
Qed.

Lemma sublist_dedup_first l : sublist (dedup_first l) l.
Proof.
  induction l as [|y r IH]; simpl; [done|].
  apply sublist_skip. etrans; [apply sublist_filter|done].
Qed.

(** *** Trimming and case folding *)

Lemma lstrip_decomp s : ∃ a, s = a +:+ lstrip s ∧ blank a = true.
Proof.
  induction s as [|c r (a & Ha & Hb)]; simpl.
  - by exists EmptyString.
  - destruct (isspace c) eqn:E.
    + exists (String c a). simpl. rewrite E, Hb. split; [|done].
      unfold String.app. simpl. f_equal. exact Ha.
    + by exists EmptyString.
Qed.

Lemma rstrip_decomp s : ∃ b, s = rstrip s +:+ b ∧ blank b = true.
Proof.
  induction s as [|c r (b & Hb & Hbl)]; simpl.
  - by exists EmptyString.
  - destruct (rstrip r) as [|d r'] eqn:E.
    + unfold String.app in Hb. simpl in Hb. subst b.
      destruct (isspace c) eqn:Ec.
      * exists (String c r). simpl. by rewrite Ec, Hbl.
      * exists r. done.
    + exists b. split; [|done]. rewrite Hb at 1. reflexivity.
Qed.

Lemma string_app_assoc (a b c : string) : (a +:+ b) +:+ c = a +:+ b +:+ c.
Proof. induction a as [|x a IH]; [done|]. unfold String.app in *. simpl. by rewrite IH. Qed.

(** [strip] only drops white space, on both sides. *)
Lemma strip_decomp s :
  ∃ a b, s = a +:+ strip s +:+ b ∧ blank a = true ∧ blank b = true.
Proof.
  destruct (lstrip_decomp s) as (a & Ha & Hba).
  destruct (rstrip_decomp (lstrip s)) as (b & Hb & Hbb).
  exists a, b. split; [|done]. unfold strip. by rewrite <- Hb.
Qed.

Lemma lstrip_head s c : head (lstrip s) = Some c → isspace c = false.
Proof.
  induction s as [|d r IH]; simpl; [done|].
  destruct (isspace d) eqn:E; [done|]. simpl. by intros [= <-].
Qed.

Lemma rstrip_head s c :
  head s = Some c → isspace c = false → head (rstrip s) = Some c.
Proof.
  destruct s as [|d r]; simpl; [done|]. intros [= ->] Hc.
  destruct (rstrip r); [by rewrite Hc|done].
Qed.

Lemma rstrip_last s c : last (rstrip s) = Some c → isspace c = false.
Proof.
  induction s as [|d r IH]; simpl; [done|].
  destruct (rstrip r) as [|e r'] eqn:E.
  - destruct (isspace d) eqn:Ed; simpl; [done|]. by intros [= <-].
  - simpl in *. done.
Qed.

Lemma strip_trimmed s : trimmed (strip s).
Proof.
  unfold strip. split; intros c Hc; [|by eapply rstrip_last].
  destruct (lstrip s) as [|d r] eqn:E; [done|].
  assert (isspace d = false) as Hd by (apply (lstrip_head s); by rewrite E).
  erewrite rstrip_head in Hc; [|done|done]. by injection Hc as <-.
Qed.

Lemma isspace_lower_char c : isspace (lower_char c) = isspace c.
Proof. by destruct c as [[] [] [] [] [] [] [] []]. Qed.

Lemma lower_char_idemp c : lower_char (lower_char c) = lower_char c.
Proof. by destruct c as [[] [] [] [] [] [] [] []]. Qed.

Lemma lower_char_comma c : lower_char c = ","%char → c = ","%char.
Proof. by destruct c as [[] [] [] [] [] [] [] []]. Qed.

Lemma lower_idemp s : lower (lower s) = lower s.
Proof. induction s as [|c r IH]; simpl; [done|]. by rewrite lower_char_idemp, IH. Qed.

Lemma head_lower s : head (lower s) = lower_char <$> head s.
Proof. by destruct s. Qed.

Lemma last_lower s : last (lower s) = lower_char <$> last s.
Proof.
  induction s as [|c r IH]; [done|]. destruct r as [|d r]; [done|].
  exact IH.
Qed.

Lemma trimmed_lower s : trimmed s → trimmed (lower s).
Proof.
  intros [Hh Hl]. split; intros c.
  - rewrite head_lower. destruct (head s) as [d|]; [|done].
    intros [= <-]. rewrite isspace_lower_char. by apply Hh.
  - rewrite last_lower. destruct (last s) as [d|]; [|done].
    intros [= <-]. rewrite isspace_lower_char. by apply Hl.
Qed.

Lemma occurs_app c a b : occurs c (a +:+ b) ↔ occurs c a ∨ occurs c b.
Proof.
  induction a as [|x a IH]; simpl; [tauto|].
  change (String x a +:+ b) with (String x (a +:+ b)). simpl. tauto.
Qed.

Lemma occurs_strip c s : occurs c (strip s) → occurs c s.
Proof.
  destruct (strip_decomp s) as (a & b & Hs & _). intros Hc.
  rewrite Hs, !occurs_app. tauto.
Qed.

Lemma occurs_comma_lower s : occurs "," (lower s) → occurs "," s.
Proof.
  induction s as [|c r IH]; simpl; [done|].
  intros [Hc|Hr]; [left|right; by apply IH].
  symmetry. by apply lower_char_comma.
Qed.

End PyStrFacts.

(** ** Facts about the barcode artifact resolver *)
Module BarcodeFacts.
Import PyStr Spec PyStrFacts.

Lemma keep_app p a b : keep p (a +:+ b) = keep p a +:+ keep p b.
Proof.
  induction a as [|c a IH]; [done|].
  change (String c a +:+ b) with (String c (a +:+ b)). simpl.
  destruct (p c); [|done]. change (String c (keep p a) +:+ keep p b)
    with (String c (keep p a +:+ keep p b)). by rewrite IH.
Qed.

Lemma isdigit_not_space c : isdigit c = true → isspace c = false.
Proof. by_ascii_cases c. Qed.

Lemma keep_isdigit_blank a : blank a = true → keep isdigit a = EmptyString.
Proof.
  induction a as [|c a IH]; simpl; [done|].
  intros [Hc Ha]%andb_true_iff.
  destruct (isdigit c) eqn:E; [|by apply IH].
  apply isdigit_not_space in E. congruence.
Qed.

Lemma string_app_empty_r (a : string) : a +:+ EmptyString = a.
Proof. induction a as [|c a IH]; [done|]. unfold String.app in *. simpl. by rewrite IH. Qed.

Lemma keep_isdigit_strip s : keep isdigit (strip s) = keep isdigit s.
Proof.
  destruct (strip_decomp s) as (a & b & Hs & Ha & Hb).
  rewrite Hs at 2.
  rewrite !keep_app, (keep_isdigit_blank a Ha), (keep_isdigit_blank b Hb).
  by rewrite string_app_empty_r.
Qed.

Lemma keep_keep p q s :
  (∀ c, p c = true → q c = true) → keep p (keep q s) = keep p s.
Proof.
  intros Hpq. induction s as [|c s IH]; simpl; [done|].
  destruct (q c) eqn:Eq; simpl.
  - by rewrite IH.
  - destruct (p c) eqn:Ep; [|done]. apply Hpq in Ep. congruence.
Qed.

Lemma isdigit_not_dot c : isdigit c = true → negb (bool_decide (c = "."%char)) = true.
Proof. by_ascii_cases c. Qed.

(** Step 1 of the resolver amounts to dropping every character that is not a
    digit: trimming and removing the dots change nothing of the result. *)
Lemma clean_ean_digits s : clean_ean s = keep isdigit s.
Proof.
  unfold clean_ean, remove_char.
  rewrite keep_keep by apply isdigit_not_dot. apply keep_isdigit_strip.
Qed.

Lemma keep_idemp p s : keep p (keep p s) = keep p s.
Proof. by apply keep_keep. Qed.

Lemma png_path_assoc (dir base : string) :
  path_join dir base +:+ ".png" = path_join dir (base +:+ ".png").
Proof. unfold path_join. by rewrite !string_app_assoc. Qed.

Lemma makedirs_idemp p d : makedirs p (makedirs p d) = makedirs p d.
Proof. unfold makedirs. simpl. f_equal. set_solver. Qed.

Lemma makedirs_present p d : p ∈ files d → makedirs p d = d.
Proof.
  intros Hp. destruct d as [fs rs]. unfold makedirs. simpl in *.
  f_equal. set_solver.
Qed.

(** The relative path of the artifact of [s] and the file behind it. *)
Lemma save_barcode_simple_long env s d :
  (12 ≤ String.length (keep isdigit s))%nat →
  let base := "barcode " +:+ keep isdigit s in
  let out_dir := path_join static_folder "barcodes" in
  let d1 := makedirs out_dir d in
  save_barcode_simple env s d =
    if path_exists (path_join out_dir (base +:+ ".png")) d1 then
      (d1, Ok (Some ("barcodes/" +:+ base +:+ ".png")))
    else if ean13_accepts env (prefix 12 (keep isdigit s)) then
      ({| files := {[path_join out_dir (base +:+ ".png")]} ∪ files d1;
          renders := prefix 12 (keep isdigit s) :: renders d1 |},
       Ok (Some ("barcodes/" +:+ base +:+ ".png")))
    else (d1, Raise BarcodeError).
Proof.
  intros Hlen. unfold save_barcode_simple. rewrite clean_ean_digits.
  destruct (Nat.ltb_spec (String.length (keep isdigit s)) 12) as [?|_]; [lia|].
  cbv zeta. destruct (path_exists _ _); [done|].
  unfold ean13_save. rewrite png_path_assoc.
  by destruct (ean13_accepts env _).
Qed.

End BarcodeFacts.

(** ** The specification's properties *)
Import PyStr Spec PyStrFacts BarcodeFacts.

Lemma normalized_tokens_code raw :
  (λ t, lower (strip t)) <$> filter (λ t, strip t ≠ EmptyString) (split "," raw)
  = normalized_tokens raw.
Proof.
  unfold normalized_tokens.
  induction (split "," raw) as [|t ts IH]; [done|].
  rewrite fmap_cons. destruct (decide (strip t = EmptyString)) as [E|E].
  - rewrite filter_cons_False by tauto.
    rewrite filter_cons_False; [done|]. rewrite E. simpl. tauto.
  - rewrite filter_cons_True by done. rewrite fmap_cons.
    rewrite filter_cons_True by (by rewrite lower_empty). by rewrite IH.
Qed.

Lemma elem_of_normalized_tokens raw t :
  t ∈ normalized_tokens raw ↔
  ∃ tok, tok ∈ split "," raw ∧ strip tok ≠ EmptyString ∧ t = lower (strip tok).
Proof.
  unfold normalized_tokens. rewrite list_elem_of_filter, list_elem_of_fmap.
  split.
  - intros (Hne & tok & -> & Htok). exists tok.
    by rewrite lower_empty in Hne.
  - intros (tok & Htok & Hne & ->). rewrite lower_empty. eauto.
Qed.

(** C4: [parse_tags] maps [None] to [None]; on a string it returns the
    trimmed, lower-cased, non-empty comma-separated tokens without
    duplicates, the first occurrence of each kept, in the order of the
    input.  So [parse_tags ""] is the empty list and
    [parse_tags "Cola, cola, 1.5L"] is ["cola"; "1.5l"]. *)
Theorem parse_tags_normalizes :
  parse_tags None = None
  ∧ (∀ raw : string, ∃ out : list string,
       parse_tags (Some raw) = Some out
       (* the tokens are the comma-separated pieces of the input *)
       ∧ join "," (split "," raw) = raw
       ∧ Forall (λ tok, ¬ occurs "," tok) (split "," raw)
       (* first occurrence wins, order preserved *)
       ∧ out = dedup_first (normalized_tokens raw)
       ∧ sublist out (normalized_tokens raw)
       ∧ NoDup out
       (* which tags there are *)
       ∧ (∀ t, t ∈ out ↔
            ∃ tok, tok ∈ split "," raw ∧ strip tok ≠ EmptyString
                   ∧ t = lower (strip tok))
       (* each is non-empty, trimmed and in lower case *)
       ∧ Forall (λ t, t ≠ EmptyString ∧ trimmed t ∧ lower t = t) out)
  ∧ parse_tags (Some "") = Some []
  ∧ parse_tags (Some "Cola, cola, 1.5L") = Some ["cola"; "1.5l"].
Proof.
  split; [reflexivity|]. split; [|split; vm_compute; reflexivity].
  intros raw. exists (dedup_first (normalized_tokens raw)).
  assert (∀ t, t ∈ dedup_first (normalized_tokens raw) ↔
            ∃ tok, tok ∈ split "," raw ∧ strip tok ≠ EmptyString
                   ∧ t = lower (strip tok)) as Hin.
  { intros t. by rewrite elem_of_dedup_first, elem_of_normalized_tokens. }
  repeat split.
  - unfold parse_tags. cbv zeta.
    by rewrite normalized_tokens_code, dict_fromkeys_dedup.
  - apply join_split.
  - apply Forall_forall. intros tok. apply split_no_sep.
  - apply sublist_dedup_first.
  - apply NoDup_dedup_first.
  - apply Hin.
  - apply Hin.
  - apply Forall_forall. intros t (tok & _ & Hne & ->)%Hin. repeat split.
    + by rewrite lower_empty.
    + intros c Hc.
      pose proof (trimmed_lower _ (strip_trimmed tok)) as [Hh _]. by apply Hh.
    + intros c Hc.
      pose proof (trimmed_lower _ (strip_trimmed tok)) as [_ Hl]. by apply Hl.
    + apply lower_idemp.
Qed.

(** C5: the resolver first drops every character that is not a digit; when
    fewer than 12 digits remain it returns [None], raises nothing and leaves
    the static directory as it was (no file, no rendering). *)
Theorem save_barcode_simple_short (env : Env) (s : string) (d : Disk) :
  (String.length (keep isdigit s) < 12)%nat →
  clean_ean s = keep isdigit s
  ∧ save_barcode_simple env s d = (d, Ok None).
Proof.
  intros Hlen. split; [apply clean_ean_digits|].
  unfold save_barcode_simple. rewrite clean_ean_digits.
  destruct (Nat.ltb_spec (String.length (keep isdigit s)) 12) as [_|?]; [done|lia].
Qed.

Lemma save_barcode_simple_short_witness :
  clean_ean "12345" = keep isdigit "12345"
  ∧ save_barcode_simple sample_env "12345" empty_disk = (empty_disk, Ok None).
Proof.
  apply (save_barcode_simple_short sample_env "12345" empty_disk).
  vm_compute. lia.
Defined.

(** C6, counterexample: 5701234567890 and 5701234567891 share their first
    12 digits and get different artifacts; the name holds all 13 digits. *)
Lemma save_barcode_simple_name_counterexample :
  save_barcode_simple sample_env "5701234567890" empty_disk
  = ({| files := {["static/barcodes/barcode 5701234567890.png"]}
                 ∪ ({["static/barcodes"]} ∪ ∅);
        renders := ["570123456789"] |},
     Ok (Some "barcodes/barcode 5701234567890.png"))
  ∧ ¬ named_from_first_12 sample_env.
Proof.
  split; [by vm_compute|].
  intros H.
  specialize (H "5701234567890" "5701234567891" empty_disk
                (save_barcode_simple sample_env "5701234567890" empty_disk).1
                (save_barcode_simple sample_env "5701234567891" empty_disk).1
                "barcodes/barcode 5701234567890.png"
                "barcodes/barcode 5701234567891.png").
  discriminate H; vm_compute; (reflexivity || lia).
Qed.

(** C6, amended: when the cleaned input has at least 12 digits, the
    artifact is named after the whole cleaned digit string ("barcode
    <digits>.png"; the first 12 digits are only the payload that is
    rendered).  If that file exists the resolver returns its relative path
    and renders nothing; and after a call that returned a path, a second
    call with the same input returns the same path and changes nothing. *)
Theorem save_barcode_simple_idempotent (env : Env) (s : string) (d : Disk) :
  (12 ≤ String.length (keep isdigit s))%nat →
  let path := "barcodes/barcode " +:+ keep isdigit s +:+ ".png" in
  let file := "static/barcodes/barcode " +:+ keep isdigit s +:+ ".png" in
  (file ∈ files d →
     save_barcode_simple env s d
     = (makedirs "static/barcodes" d, Ok (Some path))
     ∧ renders (save_barcode_simple env s d).1 = renders d)
  ∧ (∀ d1 r, save_barcode_simple env s d = (d1, Ok r) →
       r = Some path ∧ file ∈ files d1
       ∧ save_barcode_simple env s d1 = (d1, Ok (Some path))).
Proof.
  intros Hlen path file.
  assert (∀ d0, file ∈ files d0 →
            save_barcode_simple env s d0
            = (makedirs "static/barcodes" d0, Ok (Some path))) as Hexists.
  { intros d0 Hf. rewrite save_barcode_simple_long by done. cbv zeta.
    unfold path_exists. rewrite bool_decide_eq_true_2; [done|].
    unfold makedirs. simpl. apply elem_of_union_r. exact Hf. }
  split.
  - intros Hf. rewrite Hexists by done. done.
  - intros d1 r. rewrite save_barcode_simple_long by done. cbv zeta.
    unfold path_exists. case_bool_decide as Hf.
    + intros [= <- <-]. split; [done|]. split; [exact Hf|].
      rewrite Hexists by exact Hf. by rewrite makedirs_idemp.
    + destruct (ean13_accepts env _); [|done].
      intros [= <- <-]. split; [done|].
      assert (file ∈ files
                {| files := {[file]} ∪ files (makedirs "static/barcodes" d);
                   renders := prefix 12 (keep isdigit s)
                              :: renders (makedirs "static/barcodes" d) |})
        as Hin by (simpl; set_solver).
      split; [exact Hin|].
      rewrite Hexists by exact Hin. f_equal.
      apply makedirs_present. simpl. set_solver.
Qed.

Lemma save_barcode_simple_idempotent_witness :
  let d1 := (save_barcode_simple sample_env "570123456789" empty_disk).1 in
  save_barcode_simple sample_env "570123456789" empty_disk
  = (d1, Ok (Some "barcodes/barcode 570123456789.png"))
  ∧ renders d1 = ["570123456789"]
  ∧ save_barcode_simple sample_env "570123456789" d1
    = (d1, Ok (Some "barcodes/barcode 570123456789.png")).
Proof.
  assert (12 ≤ String.length (keep isdigit "570123456789"))%nat as Hlen
    by (vm_compute; lia).
  pose proof (save_barcode_simple_idempotent sample_env "570123456789"
                empty_disk Hlen) as [_ H2].
  split; [by vm_compute|]. split; [by vm_compute|].
  eapply H2. by vm_compute.
Defined.

(** ** Facts about the statements on [produkter] *)
Module RepoFacts.

Lemma find_by_id_cons pid r rows :
  find_by_id pid (r :: rows)
  = if decide (product_id r = pid) then Some r else find_by_id pid rows.
Proof. unfold find_by_id. rewrite filter_cons. by case_decide. Qed.

Lemma find_by_ean_cons ean r rows :
  find_by_ean ean (r :: rows)
  = if decide (product_ean r = ean) then Some r else find_by_ean ean rows.
Proof. unfold find_by_ean. rewrite filter_cons. by case_decide. Qed.

Lemma find_by_id_Some pid rows r :
  find_by_id pid rows = Some r → r ∈ rows ∧ product_id r = pid.
Proof.
  unfold find_by_id. intros H%head_Some_elem_of.
  by apply list_elem_of_filter in H as [? ?].
Qed.

Lemma find_by_ean_Some ean rows r :
  find_by_ean ean rows = Some r → r ∈ rows ∧ product_ean r = ean.
Proof.
  unfold find_by_ean. intros H%head_Some_elem_of.
  by apply list_elem_of_filter in H as [? ?].
Qed.

Lemma find_by_ean_None ean rows :
  find_by_ean ean rows = None ↔ Forall (λ r, product_ean r ≠ ean) rows.
Proof.
  induction rows as [|r rows IH]; [done|].
  rewrite find_by_ean_cons, Forall_cons. case_decide; [|tauto].
  split; [done|tauto].
Qed.

(** What a lookup by id sees after an update by id that keeps the ids. *)
Lemma find_by_id_update_where pid pid' f rows :
  (∀ r, product_id (f r) = product_id r) →
  find_by_id pid' (update_where_id pid f rows)
  = if decide (pid' = pid) then f <$> find_by_id pid' rows
    else find_by_id pid' rows.
Proof.
  intros Hf. unfold update_where_id.
  induction rows as [|r rows IH]; [by case_decide|].
  rewrite fmap_cons, !find_by_id_cons, IH.
  destruct (decide (product_id r = pid)) as [Hr|Hr].
  - rewrite Hf. subst pid. repeat case_decide; done.
  - repeat case_decide; congruence.
Qed.

Lemma update_where_id_Forall pid f rows (P : Product → Prop) :
  (∀ r, product_id r = pid → P (f r)) →
  Forall (λ r, product_id r = pid → P r)
    (update_where_id pid f rows).
Proof.
  intros Hf. unfold update_where_id. apply Forall_fmap, Forall_forall.
  intros r _. simpl. case_decide as Hr; [auto|tauto].
Qed.

Lemma update_where_id_length pid f rows :
  length (update_where_id pid f rows) = length rows.
Proof. unfold update_where_id. apply length_fmap. Qed.

Lemma set_stock_qty_same r : set_stock_qty (stock_qty r) r = r.
Proof. by destruct r. Qed.

Lemma update_quantity_delta_0 pid rows : update_quantity_delta pid 0 rows = rows.
Proof.
  unfold update_quantity_delta, update_where_id.
  induction rows as [|r rows IH]; [done|].
  rewrite fmap_cons, IH. f_equal. case_decide; [|done].
  by rewrite Z.add_0_r, set_stock_qty_same.
Qed.


Lemma with_produkter_same w : with_produkter (produkter w) w = w.
Proof. by destruct w. Qed.

End RepoFacts.

Import RepoFacts.



(** C10: when the [delta] field of a quantity-add request is present and
    [int] rejects it, the delta is 0 and the request leaves the state as it
    was, every [stock_qty] included; the default 1 is for an absent field
    only. *)
Theorem products_qty_add_unparseable (env : Env) (pid : Z) (req : Request)
    (w : World) (s : string) :
  form req !! "delta" = Some s →
  PyStr.int s = None →
  int_field (form req) "delta" 1 0 = 0
  ∧ (products_qty_add env pid req w).1 = w.
Proof.
  intros Hs Hi. unfold products_qty_add, int_field. rewrite Hs, Hi.
  split; [done|]. destruct (get_db_connection env); [|done]. simpl.
  by rewrite update_quantity_delta_0, with_produkter_same.
Qed.

(** The default of an absent [delta] is 1. *)
Lemma products_qty_add_absent (env : Env) (pid : Z) (req : Request)
    (w : World) (r : Product) :
  get_db_connection env = Ok () →
  find_by_id pid (produkter w) = Some r →
  form req !! "delta" = None →
  find_by_id pid (produkter (products_qty_add env pid req w).1)
  = Some (set_stock_qty (stock_qty r + 1) r).
Proof.
  intros Hdb Hr Hs. unfold products_qty_add, int_field. rewrite Hdb, Hs.
  simpl. unfold update_quantity_delta.
  rewrite find_by_id_update_where by done. rewrite decide_True by done.
  by rewrite Hr.
Qed.



Lemma products_qty_add_unparseable_witness :
  (int_field (form (post [("delta", "abc")])) "delta" 1 0 = 0
   ∧ (products_qty_add sample_env 2 (post [("delta", "abc")]) sample_world).1
     = sample_world)
  ∧ (int_field (form (post [("delta", String "028" "5")])) "delta" 1 0 = 0
     ∧ (products_qty_add sample_env 2 (post [("delta", String "028" "5")])
          sample_world).1
       = sample_world).
Proof.
  split.
  - apply (products_qty_add_unparseable sample_env 2 (post [("delta", "abc")])
             sample_world "abc"); by vm_compute.
  - apply (products_qty_add_unparseable sample_env 2
             (post [("delta", String "028" "5")]) sample_world
             (String "028" "5")); by vm_compute.
Defined.

(** ** Facts about the upsert and the edit statement *)
Module UpsertFacts.

Lemma find_by_ean_merge ean name desc image tgs rows :
  find_by_ean ean
    ((λ r, if decide (product_ean r = ean)
           then merge_excluded name desc image tgs r else r) <$> rows)
  = merge_excluded name desc image tgs <$> find_by_ean ean rows.
Proof.
  induction rows as [|r rows IH]; [done|].
  rewrite fmap_cons, !find_by_ean_cons, IH.
  destruct (decide (product_ean r = ean)) as [Hr|Hr].
  - simpl. by rewrite decide_True.
  - by rewrite decide_False.
Qed.

Lemma merge_keeps_others ean name desc image tgs (rows : list Product) r :
  r ∈ rows → product_ean r ≠ ean →
  r ∈ (λ r, if decide (product_ean r = ean)
            then merge_excluded name desc image tgs r else r) <$> rows.
Proof.
  intros Hr Hne. apply list_elem_of_fmap. exists r. split; [|done].
  by rewrite decide_False.
Qed.

(** The upsert on a conflict: the row that holds the EAN is merged and its
    id returned. *)
Lemma upsert_by_ean_conflict ean name desc image tgs w old :
  find_by_ean ean (produkter w) = Some old →
  (upsert_by_ean ean name desc image tgs w).2 = product_id old
  ∧ find_by_ean ean (produkter (upsert_by_ean ean name desc image tgs w).1)
    = Some (merge_excluded name desc image tgs old)
  ∧ length (produkter (upsert_by_ean ean name desc image tgs w).1)
    = length (produkter w)
  ∧ ∀ r, r ∈ produkter w → product_ean r ≠ ean →
         r ∈ produkter (upsert_by_ean ean name desc image tgs w).1.
Proof.
  intros Hold. unfold upsert_by_ean. rewrite Hold. simpl.
  split; [done|]. split; [by rewrite find_by_ean_merge, Hold|].
  split; [by rewrite length_fmap|]. intros r. apply merge_keeps_others.
Qed.

(** The upsert without a conflict: one row is appended, with the next id of
    the sequence. *)
Lemma upsert_by_ean_insert ean name desc image tgs w :
  find_by_ean ean (produkter w) = None →
  (upsert_by_ean ean name desc image tgs w).2 = product_id_seq w
  ∧ produkter (upsert_by_ean ean name desc image tgs w).1
    = produkter w ++
      [ {| product_id := product_id_seq w; product_ean := ean;
           product_name := name; product_desc := desc;
           product_image := image; stock_qty := 0; tags := Some tgs |} ].
Proof. intros Hnone. unfold upsert_by_ean. by rewrite Hnone. Qed.

Lemma update_fields_Ok pid ean name desc tgs rows rows' :
  update_fields pid ean name desc tgs rows = Ok rows' →
  rows' = update_where_id pid (set_fields ean name desc tgs) rows.
Proof.
  unfold update_fields. destruct (_ && _); [done|]. by intros [= <-].
Qed.

Lemma update_fields_free pid ean name desc tgs rows :
  ean_taken pid ean rows = false →
  update_fields pid ean name desc tgs rows
  = Ok (update_where_id pid (set_fields ean name desc tgs) rows).
Proof. intros H. unfold update_fields. by rewrite H, andb_false_r. Qed.

(** The edit statement leaves the image and the stock of every row. *)
Lemma update_where_id_frame pid ean name desc tgs rows :
  Forall2 (λ a b, product_id a = product_id b
                  ∧ product_image a = product_image b
                  ∧ stock_qty a = stock_qty b)
    rows (update_where_id pid (set_fields ean name desc tgs) rows).
Proof.
  unfold update_where_id. induction rows as [|r rows IH]; [constructor|].
  rewrite fmap_cons. constructor; [|done]. by case_decide.
Qed.

Lemma strip_blank_empty raw : Spec.blank raw = true → PyStr.strip raw = EmptyString.
Proof. apply PyStrFacts.strip_empty. Qed.

Lemma split_blank raw t :
  Spec.blank raw = true → t ∈ PyStr.split "," raw → Spec.blank t = true.
Proof.
  revert t. induction raw as [|c raw IH]; simpl; intros t.
  - intros _ Ht. apply list_elem_of_singleton in Ht. by subst.
  - intros [Hc Hraw]%andb_true_iff. case_decide as Hcomma.
    + subst c. by vm_compute in Hc.
    + pose proof (PyStrFacts.split_not_nil "," raw) as Hne.
      destruct (PyStr.split "," raw) as [|u us] eqn:E; [done|].
      intros [->|Ht]%elem_of_cons.
      * simpl. rewrite Hc. apply IH; [done|left].
      * apply IH; [done|by right].
Qed.

(** A blank tags field normalises to the empty list. *)
Lemma parse_tags_blank raw : Spec.blank raw = true → parse_tags (Some raw) = Some [].
Proof.
  intros Hb. unfold parse_tags. cbv zeta. do 2 f_equal.
  assert (filter (λ t, PyStr.strip t ≠ EmptyString) (PyStr.split "," raw) = [])
    as ->; [|done].
  assert (Forall (λ t, Spec.blank t = true) (PyStr.split "," raw)) as Hall.
  { apply Forall_forall. intros t. by apply split_blank. }
  induction Hall as [|t ts Ht _ IH]; [done|].
  rewrite filter_cons_False; [done|].
  intros Hne. apply Hne. by apply strip_blank_empty.
Qed.

End UpsertFacts.

Import UpsertFacts.

(** C1: a create request with EAN and name, the database being reachable.
    When a row holds the EAN, that row gets the new name and description in
    every case, keeps its image unless the request carries a non-blank one,
    and keeps its tags when the normalised incoming list is empty (a blank
    tags field does not clear them); no row is added.  When no row holds the
    EAN, a new row is appended.  In both cases the response leads to the id
    the statement returns, which is the id of that row. *)
Theorem products_create_upserts (env : Env) (req : Request) (w : World) :
  let ean := PyStr.keep PyStr.isdigit (text_field (form req) "product_ean") in
  let name := text_field (form req) "product_name" in
  let desc := text_field (form req) "product_desc" in
  let image := text_field (form req) "product_image" in
  let tgs := default [] (parse_tags (form req !! "tags")) in
  method req = POST →
  get_db_connection env = Ok () →
  ean ≠ EmptyString →
  name ≠ EmptyString →
  ∃ w' id,
    products_create env req w = (w', Ok (redirect (url_products_detail id)))
    ∧ match find_by_ean ean (produkter w) with
      | Some old =>
          id = product_id old
          ∧ (∃ new, find_by_ean ean (produkter w') = Some new
               ∧ product_id new = id
               ∧ product_ean new = ean
               ∧ stock_qty new = stock_qty old
               ∧ product_name new = name
               ∧ product_desc new = desc
               ∧ (image = EmptyString → product_image new = product_image old)
               ∧ (image ≠ EmptyString → product_image new = Some image)
               ∧ (tgs = [] → tags new = tags old)
               ∧ (tgs ≠ [] → tags new = Some tgs))
          ∧ length (produkter w') = length (produkter w)
          ∧ (∀ r, r ∈ produkter w → product_ean r ≠ ean → r ∈ produkter w')
      | None =>
          id = product_id_seq w
          ∧ produkter w'
            = produkter w ++
              [ {| product_id := id; product_ean := ean;
                   product_name := name; product_desc := desc;
                   product_image :=
                     if PyStr.truthy image then Some image else None;
                   stock_qty := 0; tags := Some tgs |} ]
      end.
Proof.
  intros ean name desc image tgs Hm Hdb Hean Hname.
  unfold products_create. rewrite Hm, Hdb.
  fold ean name desc image tgs.
  assert (PyStr.truthy ean = true) as -> by (by destruct ean).
  assert (PyStr.truthy name = true) as -> by (by destruct name).
  simpl negb. simpl orb. cbv iota.
  set (img := if PyStr.truthy image then Some image else None).
  destruct (upsert_by_ean ean name desc img tgs w) as [w' id] eqn:Hup.
  exists w', id. split; [done|].
  destruct (find_by_ean ean (produkter w)) as [old|] eqn:Hfind.
  - destruct (upsert_by_ean_conflict ean name desc img tgs w old Hfind)
      as (Hid & Hnew & Hlen & Hothers).
    rewrite Hup in Hid, Hnew, Hlen, Hothers. simpl in *.
    apply find_by_ean_Some in Hfind as [_ Hoe].
    split; [done|]. split; [|done].
    exists (merge_excluded name desc img tgs old).
    split; [done|]. simpl. repeat split; try done.
    + intros Hi. subst img. by rewrite Hi.
    + intros Hi. subst img. by destruct image.
    + by intros ->.
    + intros Ht. by destruct tgs.
  - destruct (upsert_by_ean_insert ean name desc img tgs w Hfind) as [Hid Hrows].
    rewrite Hup in Hid, Hrows. simpl in *. by subst id.
Qed.

Lemma products_create_upserts_witness :
  ∃ w' id,
    products_create sample_env create_again sample_world
    = (w', Ok (redirect (url_products_detail id)))
    ∧ id = 1
    ∧ ∃ new, find_by_ean "5701234567890" (produkter w') = Some new
        ∧ product_name new = "Cola Zero"
        ∧ product_desc new = "33 cl"
        ∧ product_image new = product_image cola
        ∧ tags new = tags cola.
Proof.
  pose proof (products_create_upserts sample_env create_again sample_world) as H.
  cbv zeta in H.
  destruct H as (w' & id & Hresp & H); [by vm_compute..|].
  exists w', id. split; [exact Hresp|].
  change (find_by_ean _ (produkter sample_world)) with (Some cola) in H.
  destruct H as (Hid & (new & Hnew & _ & _ & _ & Hn & Hd & Hi & _ & Ht & _) & _).
  split; [exact Hid|]. exists new.
  split; [exact Hnew|]. split; [exact Hn|]. split; [exact Hd|].
  split; [apply Hi|apply Ht]; by vm_compute.
Defined.

(** C9: an edit that succeeds (the response leads to the detail page of
    the product) leaves [product_image] and [stock_qty] of the row as they
    were: the row differs from the old one in [product_ean], [product_name],
    [product_desc] and [tags] at most, and every row of the table keeps its
    id, image and stock. *)
Theorem products_edit_keeps_image_and_stock (env : Env) (pid : Z)
    (req : Request) (w w' : World) :
  products_edit env pid req w
  = (w', Ok (redirect (url_products_detail pid))) →
  ∃ r r',
    find_by_id pid (produkter w) = Some r
    ∧ find_by_id pid (produkter w') = Some r'
    ∧ product_image r' = product_image r
    ∧ stock_qty r' = stock_qty r
    ∧ r' = set_fields (product_ean r') (product_name r') (product_desc r')
             (tags r') r
    ∧ Forall2 (λ a b, product_id a = product_id b
                      ∧ product_image a = product_image b
                      ∧ stock_qty a = stock_qty b)
        (produkter w) (produkter w').
Proof.
  unfold products_edit. destruct (get_db_connection env) as [[]|e]; [|done].
  destruct (find_by_id pid (produkter w)) as [r|] eqn:Hr; [|done].
  destruct (method req); [done|].
  destruct (update_fields _ _ _ _ _ _) as [rows|e] eqn:Hup; [|done].
  intros [= <-]. apply update_fields_Ok in Hup. subst rows. simpl.
  exists r. eexists. split; [done|].
  split.
  { rewrite find_by_id_update_where by done. rewrite decide_True by done.
    by rewrite Hr. }
  repeat split. apply update_where_id_frame.
Qed.

Lemma products_edit_keeps_image_and_stock_witness :
  ∃ r r',
    find_by_id 1 (produkter sample_world) = Some r
    ∧ find_by_id 1 (produkter (products_edit sample_env 1 edit_no_tags
                                 sample_world).1) = Some r'
    ∧ product_image r' = product_image r
    ∧ stock_qty r' = stock_qty r
    ∧ r' = set_fields (product_ean r') (product_name r') (product_desc r')
             (tags r') r
    ∧ Forall2 (λ a b, product_id a = product_id b
                      ∧ product_image a = product_image b
                      ∧ stock_qty a = stock_qty b)
        (produkter sample_world)
        (produkter (products_edit sample_env 1 edit_no_tags sample_world).1).
Proof.
  apply (products_edit_keeps_image_and_stock sample_env 1 edit_no_tags
           sample_world). by vm_compute.
Defined.

(** C3: an edit request (POST) on an existing product.  Without a tags
    field the stored tags stay as they were.  With a tags field, and the
    database accepting the statement, the stored tags become the normalised
    field: the empty list when the field is blank. *)
Theorem products_edit_tags (env : Env) (pid : Z) (req : Request) (w : World)
    (r : Product) :
  method req = POST →
  find_by_id pid (produkter w) = Some r →
  (form req !! "tags" = None →
     ∃ r', find_by_id pid (produkter (products_edit env pid req w).1) = Some r'
           ∧ tags r' = tags r)
  ∧ (∀ raw, form req !! "tags" = Some raw →
       get_db_connection env = Ok () →
       ean_taken pid (text_field (form req) "product_ean") (produkter w) = false →
       ∃ w' r',
         products_edit env pid req w
         = (w', Ok (redirect (url_products_detail pid)))
         ∧ find_by_id pid (produkter w') = Some r'
         ∧ tags r' = parse_tags (Some raw)
         ∧ (Spec.blank raw = true → tags r' = Some [])).
Proof.
  intros Hm Hr. split.
  - intros Hnone. unfold products_edit.
    destruct (get_db_connection env) as [[]|e]; [|by exists r].
    rewrite Hr, Hm, Hnone. simpl parse_tags. cbv iota.
    unfold update_fields. destruct (_ && _); [by exists r|].
    simpl. eexists. split.
    + rewrite find_by_id_update_where by done. rewrite decide_True by done.
      by rewrite Hr.
    + done.
  - intros raw Hraw Hdb Hfree. unfold products_edit.
    rewrite Hdb, Hr, Hm, Hraw. rewrite update_fields_free by done.
    eexists _, _. split; [reflexivity|]. simpl produkter. split.
    + rewrite find_by_id_update_where by done. rewrite decide_True by done.
      by rewrite Hr.
    + split; [done|]. intros Hb. simpl. by rewrite <- (parse_tags_blank raw).
Qed.

Lemma products_edit_tags_witness :
  (∃ r', find_by_id 1 (produkter (products_edit sample_env 1 edit_no_tags
                                    sample_world).1) = Some r'
         ∧ tags r' = Some ["cola"; "1.5l"])
  ∧ (∃ w' r',
       products_edit sample_env 1 edit_blank_tags sample_world
       = (w', Ok (redirect (url_products_detail 1)))
       ∧ find_by_id 1 (produkter w') = Some r'
       ∧ tags r' = Some []).
Proof.
  split.
  - apply (products_edit_tags sample_env 1 edit_no_tags sample_world cola);
      by vm_compute.
  - destruct (products_edit_tags sample_env 1 edit_blank_tags sample_world cola)
      as [_ H]; [by vm_compute..|].
    destruct (H "") as (w' & r' & Hresp & Hfind & _ & Hblank); [by vm_compute..|].
    exists w', r'. split; [exact Hresp|]. split; [exact Hfind|].
    by apply Hblank.
Defined.

(** C2: with the camera flag off, the two scan handlers answer with a
    redirect to the product list and touch nothing.  The two photo handlers
    never consult the flag: no request makes them answer with that redirect,
    and with a non-empty [ean] the photo handler of the create form goes on
    to the capture, which opens the camera whenever the name [cv2] resolves
    and raises [NameError] otherwise. *)
Theorem photo_handlers_ignore_camera_flag (env : Env) (pid : Z)
    (req : Request) (w : World) :
  ENABLE_CAMERA env = false →
  products_scan env req w = (w, Ok (redirect url_products_list))
  ∧ products_scan_increment env req w = (w, Ok (redirect url_products_list))
  ∧ (products_photo_new env req w).2 ≠ Ok (redirect url_products_list)
  ∧ (products_photo_edit env pid req w).2 ≠ Ok (redirect url_products_list)
  ∧ (text_field (args req) "ean" ≠ EmptyString →
       match capture_session env with
       | capture_unbound =>
           (products_photo_new env req w).2 = Raise (NameError "cv2")
       | _ =>
           camera_opened (products_photo_new env req w).1
           = S (camera_opened w)
       end).
Proof.
  intros Hflag. unfold products_scan, products_scan_increment.
  rewrite Hflag. simpl negb. cbv iota.
  split; [done|]. split; [done|]. split; [|split].
  - unfold products_photo_new, capture_photo_interactive_to_static.
    destruct (PyStr.truthy (text_field (args req) "ean")); simpl; [|done].
    destruct (capture_session env); simpl; done.
  - unfold products_photo_edit, capture_photo_interactive_to_static.
    destruct (get_db_connection env); [|done].
    destruct (capture_session env); simpl; done.
  - intros Hean. unfold products_photo_new, capture_photo_interactive_to_static.
    destruct (text_field (args req) "ean") as [|c ean]; [done|].
    simpl PyStr.truthy. simpl negb. cbv iota.
    destruct (capture_session env); simpl; done.
Qed.

Lemma photo_handlers_ignore_camera_flag_witness :
  (products_photo_new sample_env (get [("ean", "5701234567890")])
     sample_world).2 = Raise (NameError "cv2")
  ∧ (products_photo_new sample_env (get [("ean", "5701234567890")])
       sample_world).2 ≠ Ok (redirect url_products_list)
  ∧ (products_photo_edit sample_env 1 (get []) sample_world).2
    = Raise (NameError "cv2").
Proof.
  destruct (photo_handlers_ignore_camera_flag sample_env 1
              (get [("ean", "5701234567890")]) sample_world)
    as (_ & _ & Hnew & _ & Hcap); [reflexivity|].
  split; [apply Hcap; by vm_compute|]. split; [exact Hnew|]. by vm_compute.
Defined.

(** ** Examples *)

(** The example of the docstring of [parse_tags]. *)
Example parse_tags_docstring :
  parse_tags (Some "sodavand, 1.5L, Cola") = Some ["sodavand"; "1.5l"; "cola"].
Proof. by vm_compute. Qed.

(** What [int] accepts and what it rejects. *)
Example int_examples :
  PyStr.int " -12 " = Some (-12) ∧ PyStr.int "+5" = Some 5
  ∧ PyStr.int "1_000" = Some 1000 ∧ PyStr.int "007" = Some 7
  ∧ PyStr.int "" = None ∧ PyStr.int "abc" = None ∧ PyStr.int "1__0" = None
  ∧ PyStr.int "- 5" = None ∧ PyStr.int "1.5" = None
  ∧ PyStr.int (String "028" "5") = None ∧ PyStr.strip (String "028" "5") = "5"
  ∧ PyStr.int (String "160" "5") = Some 5.
Proof. by vm_compute. Qed.

(** Five digits are too few: no artifact. *)
Example save_barcode_simple_12345 :
  save_barcode_simple sample_env "12345" empty_disk = (empty_disk, Ok None).
Proof. by vm_compute. Qed.

(** A quantity-set of -1 on a product with stock 4 leaves 0. *)
Example products_qty_set_minus_one :
  find_by_id 2
    (produkter (products_qty_set sample_env 2 (post [("qty", "-1")])
                  sample_world).1)
  = Some (set_stock_qty 0 kiks).
Proof. by vm_compute. Qed.

(** An edit that would give Kiks the EAN of Cola is rejected by the unique
    index and changes nothing. *)
Example products_edit_duplicate_ean :
  products_edit sample_env 2
    (post [("product_ean", "5701234567890"); ("product_name", "Kiks");
           ("tags", "")]) sample_world
  = (sample_world, Ok (product_form edit (Some (Databasefejl UniqueViolation)))).
Proof. by vm_compute. Qed.

(** ** The table stays well formed *)
Module Invariant.

Lemma update_where_id_ids pid f (rows : list Product) :
  (∀ r, product_id (f r) = product_id r) →
  product_id <$> update_where_id pid f rows = product_id <$> rows.
Proof.
  intros Hf. unfold update_where_id. rewrite <- list_fmap_compose.
  apply list_fmap_ext. intros i r _. simpl. case_decide; [apply Hf|done].
Qed.

Lemma update_where_id_eans pid f (rows : list Product) :
  (∀ r, product_ean (f r) = product_ean r) →
  product_ean <$> update_where_id pid f rows = product_ean <$> rows.
Proof.
  intros Hf. unfold update_where_id. rewrite <- list_fmap_compose.
  apply list_fmap_ext. intros i r _. simpl. case_decide; [apply Hf|done].
Qed.

Lemma update_where_id_absent pid f (rows : list Product) :
  pid ∉ product_id <$> rows → update_where_id pid f rows = rows.
Proof.
  unfold update_where_id. induction rows as [|r rows IH]; [done|].
  rewrite !fmap_cons, not_elem_of_cons. intros [Hr Hrows].
  rewrite decide_False by done. by rewrite IH.
Qed.

Lemma find_by_id_None pid (rows : list Product) :
  find_by_id pid rows = None ↔ pid ∉ product_id <$> rows.
Proof.
  induction rows as [|r rows IH].
  - split; [intros _; apply not_elem_of_nil|done].
  - rewrite find_by_id_cons, fmap_cons, not_elem_of_cons.
    case_decide; [|naive_solver]. split; [done|]. intros [? _]. congruence.
Qed.

Lemma ean_taken_false pid ean rows :
  ean_taken pid ean rows = false ↔
  Forall (λ r, product_id r ≠ pid → product_ean r ≠ ean) rows.
Proof.
  unfold ean_taken. induction rows as [|r rows IH]; [done|].
  simpl. rewrite orb_false_iff, andb_false_iff, Forall_cons, IH.
  rewrite !bool_decide_eq_false. split.
  - intros [[H|H] Hrest]; split; try done; tauto.
  - intros [H Hrest]. split; [|done].
    destruct (decide (product_id r = pid)); [left; tauto|right; auto].
Qed.

(** Writing a free EAN into the row of [pid] keeps the EANs distinct. *)
Lemma update_ean_NoDup pid ean (f : Product → Product) rows :
  (∀ r, product_ean (f r) = ean) →
  NoDup (product_id <$> rows) →
  NoDup (product_ean <$> rows) →
  Forall (λ r, product_id r ≠ pid → product_ean r ≠ ean) rows →
  NoDup (product_ean <$> update_where_id pid f rows).
Proof.
  intros Hf. induction rows as [|r rows IH]; [done|].
  rewrite !fmap_cons, !NoDup_cons, Forall_cons.
  intros [Hid Hids] [Hean Heans] [Hr Hfree].
  unfold update_where_id. rewrite fmap_cons. fold (update_where_id pid f rows).
  destruct (decide (product_id r = pid)) as [Hp|Hp].
  - subst pid. rewrite update_where_id_absent by done.
    rewrite fmap_cons, NoDup_cons, Hf. split; [|done].
    intros (r' & Hr' & Hin)%list_elem_of_fmap.
    rewrite Forall_forall in Hfree. apply (Hfree r' Hin); [|done].
    intros Heq. apply Hid. apply list_elem_of_fmap. by exists r'.
  - rewrite fmap_cons, NoDup_cons. split; [|by apply IH].
    intros (r' & Hr' & Hin)%list_elem_of_fmap.
    unfold update_where_id in Hin.
    apply list_elem_of_fmap in Hin as (r0 & -> & Hin0).
    case_decide.
    + rewrite Hf in Hr'. by apply Hr.
    + apply Hean. apply list_elem_of_fmap. by exists r0.
Qed.

Lemma wf_update_keeping pid f w :
  (∀ r, product_id (f r) = product_id r) →
  (∀ r, product_ean (f r) = product_ean r) →
  wf_table w →
  wf_table (with_produkter (update_where_id pid f (produkter w)) w).
Proof.
  intros Hid Hean (Hids & Heans & Hseq). unfold wf_table. simpl.
  rewrite update_where_id_ids, update_where_id_eans by done.
  split; [done|]. split; [done|].
  unfold update_where_id. apply Forall_fmap. eapply Forall_impl; [exact Hseq|].
  intros r Hr. simpl. case_decide; [by rewrite Hid|done].
Qed.

Lemma wf_with_static d w : wf_table w → wf_table (with_static d w).
Proof. done. Qed.

Lemma wf_open_camera w : wf_table w → wf_table (open_camera w).
Proof. done. Qed.

Lemma wf_upsert ean name desc image tgs w :
  wf_table w → wf_table (upsert_by_ean ean name desc image tgs w).1.
Proof.
  intros (Hids & Heans & Hseq). unfold upsert_by_ean.
  destruct (find_by_ean ean (produkter w)) as [old|] eqn:Hfind;
    unfold wf_table; simpl.
  - rewrite <- !list_fmap_compose.
    assert (∀ g : Product → Z,
              (∀ r, g (merge_excluded name desc image tgs r) = g r) →
              (g ∘ (λ r, if decide (product_ean r = ean)
                         then merge_excluded name desc image tgs r else r))
              <$> produkter w = g <$> produkter w) as HZ.
    { intros g Hg. apply list_fmap_ext. intros i r _. simpl.
      case_decide; [apply Hg|done]. }
    assert ((product_ean ∘ (λ r, if decide (product_ean r = ean)
                         then merge_excluded name desc image tgs r else r))
              <$> produkter w = product_ean <$> produkter w) as HE.
    { apply list_fmap_ext. intros i r _. simpl. by case_decide. }
    rewrite (HZ product_id) by done. rewrite HE.
    split; [done|]. split; [done|].
    apply Forall_fmap. eapply Forall_impl; [exact Hseq|].
    intros r Hr. simpl in *. case_decide; simpl; lia.
  - rewrite !fmap_app. simpl. split; [|split].
    + apply NoDup_app. split; [done|]. split; [|apply NoDup_singleton].
      intros x (r & -> & Hr)%list_elem_of_fmap Hx.
      apply list_elem_of_singleton in Hx.
      rewrite Forall_forall in Hseq. specialize (Hseq r Hr). lia.
    + apply NoDup_app. split; [done|]. split; [|apply NoDup_singleton].
      intros x (r & -> & Hr)%list_elem_of_fmap Hx.
      apply list_elem_of_singleton in Hx.
      apply find_by_ean_None in Hfind. rewrite Forall_forall in Hfind.
      by apply (Hfind r Hr).
    + apply Forall_app. split.
      * eapply Forall_impl; [exact Hseq|]. intros r Hr. simpl in *. lia.
      * apply Forall_singleton. simpl. lia.
Qed.

Lemma wf_update_fields pid ean name desc tgs w rows :
  wf_table w →
  update_fields pid ean name desc tgs (produkter w) = Ok rows →
  wf_table (with_produkter rows w).
Proof.
  intros (Hids & Heans & Hseq). unfold update_fields.
  destruct (find_by_id pid (produkter w)) as [r|] eqn:Hr.
  - rewrite bool_decide_eq_true_2 by eauto. simpl.
    destruct (ean_taken pid ean (produkter w)) eqn:Ht; [done|].
    intros [= <-]. unfold wf_table. simpl.
    rewrite update_where_id_ids by done. split; [done|]. split.
    + apply (update_ean_NoDup pid ean); try done. by apply ean_taken_false.
    + unfold update_where_id. apply Forall_fmap.
      eapply Forall_impl; [exact Hseq|]. intros r0 Hr0. simpl.
      by case_decide.
  - rewrite bool_decide_eq_false_2 by (intros [? ?]; done). simpl.
    intros [= <-]. apply find_by_id_None in Hr.
    rewrite update_where_id_absent by done. by destruct w.
Qed.

End Invariant.

Import Invariant.

(** Every handler keeps the table well formed: ids and EANs stay distinct
    and below the sequence, whatever the request and the surroundings. *)
Theorem handlers_keep_table_well_formed (env : Env) (pid : Z) (req : Request)
    (w : World) :
  wf_table w →
  wf_table (products_qty_add env pid req w).1
  ∧ wf_table (products_qty_set env pid req w).1
  ∧ wf_table (products_scan_increment env req w).1
  ∧ wf_table (products_photo_edit env pid req w).1
  ∧ wf_table (products_photo_new env req w).1
  ∧ wf_table (products_create env req w).1
  ∧ wf_table (products_scan env req w).1
  ∧ wf_table (products_edit env pid req w).1.
Proof.
  intros Hwf.
  refine (conj _ (conj _ (conj _ (conj _ (conj _ (conj _ (conj _ _))))))).
  - unfold products_qty_add. destruct (get_db_connection env); [|done].
    by apply wf_update_keeping.
  - unfold products_qty_set. destruct (get_db_connection env); [|done].
    by apply wf_update_keeping.
  - unfold products_scan_increment, read_barcode_from_camera.
    destruct (ENABLE_CAMERA env); [|done]. simpl negb. cbv iota.
    destruct (scan_session env) as [e|ean]; [done|].
    destruct (PyStr.truthy_opt ean); [|done]. simpl negb. cbv iota.
    destruct (_ <? _)%nat; [done|].
    destruct (get_db_connection env); [|done].
    destruct (find_by_ean _ _); [|done].
    unfold update_quantity_delta.
    apply (wf_update_keeping _ _ (with_static _ (open_camera w))); [done|done|].
    by apply wf_with_static, wf_open_camera.
  - unfold products_photo_edit, capture_photo_interactive_to_static.
    destruct (get_db_connection env); [|done].
    destruct (capture_session env); try done.
    destruct (negb _); [done|]. by apply wf_update_keeping.
  - unfold products_photo_new, capture_photo_interactive_to_static.
    destruct (negb _); [done|].
    by destruct (capture_session env).
  - unfold products_create. destruct (method req); [done|].
    destruct (_ || _); [done|].
    destruct (get_db_connection env); [|done].
    match goal with
    | |- context [upsert_by_ean ?a ?b ?c ?d ?e w] =>
        pose proof (wf_upsert a b c d e w Hwf) as H;
        destruct (upsert_by_ean a b c d e w)
    end.
    done.
  - unfold products_scan, read_barcode_from_camera.
    destruct (ENABLE_CAMERA env); [|done]. simpl negb. cbv iota.
    destruct (scan_session env) as [e|ean]; [done|].
    destruct (PyStr.truthy_opt ean); [|done]. simpl negb. cbv iota.
    destruct (_ <? _)%nat; [done|].
    by destruct (save_barcode_simple _ _ _) as [d [|e]].
  - unfold products_edit. destruct (get_db_connection env); [|done].
    destruct (find_by_id pid (produkter w)); [|done].
    destruct (method req); [done|].
    destruct (update_fields _ _ _ _ _ _) eqn:Hup; [|done].
    by eapply wf_update_fields.
Qed.

Lemma handlers_keep_table_well_formed_witness :
  wf_table (products_create sample_env create_again sample_world).1
  ∧ wf_table (products_edit sample_env 1 edit_blank_tags sample_world).1.
Proof.
  assert (wf_table sample_world) as Hwf.
  { unfold wf_table. simpl. split; [|split].
    - apply (bool_decide_unpack _). by vm_compute.
    - apply (bool_decide_unpack _). by vm_compute.
    - repeat constructor. }
  destruct (handlers_keep_table_well_formed sample_env 1 create_again
              sample_world Hwf) as (_ & _ & _ & _ & _ & Hc & _).
  destruct (handlers_keep_table_well_formed sample_env 1 edit_blank_tags
              sample_world Hwf) as (_ & _ & _ & _ & _ & _ & _ & He).
  by split.
Defined.

(** ** Further properties of the handlers *)
Module MoreRepoFacts.

Lemma find_by_id_delete pid pid' (rows : list Product) :
  find_by_id pid' (delete_product pid rows)
  = if decide (pid' = pid) then None else find_by_id pid' rows.
Proof.
  unfold delete_product. induction rows as [|r rows IH]; [by case_decide|].
  rewrite find_by_id_cons.
  destruct (decide (product_id r = pid)) as [Hr|Hr].
  - rewrite filter_cons_False by tauto. rewrite IH.
    repeat case_decide; congruence.
  - rewrite filter_cons_True by done. rewrite find_by_id_cons, IH.
    repeat case_decide; congruence.
Qed.

Lemma delete_product_absent pid (rows : list Product) :
  find_by_id pid rows = None → delete_product pid rows = rows.
Proof.
  unfold delete_product. induction rows as [|r rows IH]; [done|].
  rewrite find_by_id_cons. case_decide as Hr; [done|].
  intros Hnone. rewrite filter_cons_True by done. by rewrite IH.
Qed.




Lemma get_db_connection_unit env (u : ()) :
  get_db_connection env = Ok u → get_db_connection env = Ok ().
Proof. by destruct u. Qed.

End MoreRepoFacts.

Import MoreRepoFacts.

(** X2: when the database cannot be reached, no handler changes a row: the
    quantity, create, edit, delete and photo handlers leave the whole state
    as it was and answer with an error page, never with a redirect; the
    scan-and-increment handler leaves the table and the sequence. *)
Theorem database_down_changes_nothing (env : Env) (pid : Z) (req : Request)
    (w : World) (e : exn) :
  get_db_connection env = Raise e →
  products_qty_add env pid req w = (w, Ok (product_detail (Some (DB_fejl e))))
  ∧ products_qty_set env pid req w = (w, Ok (product_detail (Some (DB_fejl e))))
  ∧ products_delete env pid req w
    = (w, Ok (product_detail (Some (Databasefejl e))))
  ∧ products_photo_edit env pid req w
    = (w, Ok (product_detail (Some (Databasefejl_ved_hentning e))))
  ∧ (∃ err, products_edit env pid req w = (w, Ok (product_form edit err)))
  ∧ (∃ err, products_create env req w = (w, Ok (product_form create err)))
  ∧ produkter (products_scan_increment env req w).1 = produkter w
  ∧ product_id_seq (products_scan_increment env req w).1 = product_id_seq w.
Proof.
  intros Hdb.
  refine (conj _ (conj _ (conj _ (conj _ (conj _ (conj _ _)))))).
  - unfold products_qty_add. by rewrite Hdb.
  - unfold products_qty_set. by rewrite Hdb.
  - unfold products_delete. by rewrite Hdb.
  - unfold products_photo_edit. by rewrite Hdb.
  - unfold products_edit. rewrite Hdb. eauto.
  - unfold products_create. rewrite Hdb.
    destruct (method req); [eauto|]. destruct (_ || _); eauto.
  - unfold products_scan_increment, read_barcode_from_camera. rewrite Hdb.
    destruct (ENABLE_CAMERA env); [|done]. simpl negb. cbv iota.
    destruct (scan_session env) as [e'|ean]; [done|].
    destruct (PyStr.truthy_opt ean); [|done]. simpl negb. cbv iota.
    by destruct (_ <? _)%nat.
Qed.

(** X3: a delete request, the database being reachable, removes the row of
    the product and no other: a later lookup by the id finds nothing (the
    detail page shows no product), every other id is found as before, and
    deleting an id that is not there changes nothing.  The answer is the
    redirect to the list in every case. *)
Theorem products_delete_removes (env : Env) (pid : Z) (req : Request)
    (w : World) :
  get_db_connection env = Ok () →
  ∃ w',
    products_delete env pid req w = (w', Ok (redirect url_products_list))
    ∧ find_by_id pid (produkter w') = None
    ∧ products_detail env pid w' = (w', Ok (detail_page None None None))
    ∧ (∀ pid', pid' ≠ pid →
         find_by_id pid' (produkter w') = find_by_id pid' (produkter w))
    ∧ (∀ r, r ∈ produkter w' ↔ r ∈ produkter w ∧ product_id r ≠ pid)
    ∧ sublist (produkter w') (produkter w)
    ∧ product_id_seq w' = product_id_seq w
    ∧ (find_by_id pid (produkter w) = None → w' = w).
Proof.
  intros Hdb. unfold products_delete. rewrite Hdb. eexists.
  split; [reflexivity|]. simpl.
  assert (find_by_id pid (delete_product pid (produkter w)) = None) as Hgone.
  { rewrite find_by_id_delete. by rewrite decide_True. }
  split; [done|]. split.
  { unfold products_detail. rewrite Hdb. simpl. by rewrite Hgone. }
  split.
  { intros pid' Hne. rewrite find_by_id_delete. by rewrite decide_False. }
  split.
  { intros r. unfold delete_product. rewrite list_elem_of_filter. tauto. }
  split; [apply sublist_filter|]. split; [done|].
  intros Hnone. rewrite delete_product_absent by done.
  apply with_produkter_same.
Qed.



Lemma database_down_changes_nothing_witness :
  products_qty_add unconfigured_env 1 (post [("delta", "5")]) sample_world
  = (sample_world, Ok (product_detail (Some (DB_fejl MissingDatabaseConfig))))
  ∧ (∃ err, products_create unconfigured_env create_again sample_world
            = (sample_world, Ok (product_form create err))).
Proof.
  destruct (database_down_changes_nothing unconfigured_env 1
              (post [("delta", "5")]) sample_world MissingDatabaseConfig)
    as (Hadd & _); [reflexivity|].
  destruct (database_down_changes_nothing unconfigured_env 1
              create_again sample_world MissingDatabaseConfig)
    as (_ & _ & _ & _ & _ & Hcreate & _); [reflexivity|].
  by split.
Defined.

Lemma products_delete_removes_witness :
  ∃ w',
    products_delete sample_env 1 (post []) sample_world
    = (w', Ok (redirect url_products_list))
    ∧ find_by_id 1 (produkter w') = None
    ∧ find_by_id 2 (produkter w') = Some kiks.
Proof.
  destruct (products_delete_removes sample_env 1 (post []) sample_world)
    as (w' & Hresp & Hgone & _ & Hother & _); [reflexivity|].
  exists w'. split; [exact Hresp|]. split; [exact Hgone|].
  rewrite Hother by done. reflexivity.
Defined.



(** ** Create: round trips and repetition *)
Module CreateFacts.

Lemma find_by_id_elem (rows : list Product) r :
  NoDup (product_id <$> rows) → r ∈ rows →
  find_by_id (product_id r) rows = Some r.
Proof.
  induction rows as [|r0 rows IH]; [by intros _ ?%elem_of_nil|].
  rewrite fmap_cons, NoDup_cons, find_by_id_cons. intros [Hr0 Hnd].
  intros [->|Hin]%elem_of_cons; [by rewrite decide_True|].
  rewrite decide_False; [by apply IH|].
  intros Heq. apply Hr0. rewrite Heq. apply list_elem_of_fmap. by exists r.
Qed.

Lemma coalesce_idemp {A} (a b : option A) :
  coalesce a (coalesce a b) = coalesce a b.
Proof. by destruct a. Qed.

Lemma merge_excluded_idemp name desc image tgs r :
  merge_excluded name desc image tgs (merge_excluded name desc image tgs r)
  = merge_excluded name desc image tgs r.
Proof. unfold merge_excluded. simpl. by rewrite !coalesce_idemp. Qed.

Lemma merge_excluded_new id ean name desc image tgs :
  merge_excluded name desc image tgs
    {| product_id := id; product_ean := ean; product_name := name;
       product_desc := desc; product_image := image; stock_qty := 0;
       tags := Some tgs |}
  = {| product_id := id; product_ean := ean; product_name := name;
       product_desc := desc; product_image := image; stock_qty := 0;
       tags := Some tgs |}.
Proof. unfold merge_excluded. simpl. f_equal; [by destruct image|by destruct tgs]. Qed.

Lemma find_by_ean_app ean (l1 l2 : list Product) :
  find_by_ean ean (l1 ++ l2)
  = match find_by_ean ean l1 with
    | Some r => Some r
    | None => find_by_ean ean l2
    end.
Proof.
  induction l1 as [|r l1 IH]; [done|].
  rewrite <- app_comm_cons, !find_by_ean_cons. by case_decide.
Qed.

Lemma merge_no_match ean name desc image tgs (rows : list Product) :
  Forall (λ r, product_ean r ≠ ean) rows →
  (λ r, if decide (product_ean r = ean)
        then merge_excluded name desc image tgs r else r) <$> rows = rows.
Proof.
  induction 1 as [|r rows Hr _ IH]; [done|].
  rewrite fmap_cons, IH. by rewrite decide_False.
Qed.

(** The rows of the table after the upsert was run a second time with the
    same values are the rows after the first run, and the id is the same. *)
Lemma upsert_by_ean_twice ean name desc image tgs w :
  let once := upsert_by_ean ean name desc image tgs w in
  let twice := upsert_by_ean ean name desc image tgs once.1 in
  twice.2 = once.2 ∧ produkter twice.1 = produkter once.1.
Proof.
  cbv zeta.
  destruct (find_by_ean ean (produkter w)) as [old|] eqn:Hfind.
  - destruct (upsert_by_ean_conflict ean name desc image tgs w old Hfind)
      as (Hid & Hnew & _).
    assert (produkter (upsert_by_ean ean name desc image tgs w).1
            = (λ r, if decide (product_ean r = ean)
                    then merge_excluded name desc image tgs r else r)
              <$> produkter w) as Hrows
      by (unfold upsert_by_ean; by rewrite Hfind).
    remember (upsert_by_ean ean name desc image tgs w) as once eqn:Honce.
    unfold upsert_by_ean. rewrite Hnew. simpl. split; [by rewrite Hid|].
    rewrite Hrows, <- list_fmap_compose. apply list_fmap_ext.
    intros i r _. simpl.
    destruct (decide (product_ean r = ean)) as [Hr|Hr].
    + rewrite decide_True by done. apply merge_excluded_idemp.
    + by rewrite decide_False.
  - destruct (upsert_by_ean_insert ean name desc image tgs w Hfind)
      as [Hid Hrows].
    remember (upsert_by_ean ean name desc image tgs w) as once eqn:Honce.
    unfold upsert_by_ean. rewrite Hrows.
    rewrite find_by_ean_app, Hfind, find_by_ean_cons.
    rewrite decide_True by done. simpl. split; [by rewrite Hid|].
    rewrite fmap_app. f_equal.
    + apply merge_no_match. by apply find_by_ean_None.
    + simpl. rewrite decide_True by done. by rewrite merge_excluded_new.
Qed.

(** The arguments [products_create] hands to the upsert. *)
Lemma products_create_valid env req w :
  method req = POST →
  get_db_connection env = Ok () →
  PyStr.keep PyStr.isdigit (text_field (form req) "product_ean") ≠ EmptyString →
  text_field (form req) "product_name" ≠ EmptyString →
  products_create env req w
  = ((upsert_by_ean
        (PyStr.keep PyStr.isdigit (text_field (form req) "product_ean"))
        (text_field (form req) "product_name")
        (text_field (form req) "product_desc")
        (if PyStr.truthy (text_field (form req) "product_image")
         then Some (text_field (form req) "product_image") else None)
        (default [] (parse_tags (form req !! "tags"))) w).1,
     Ok (redirect (url_products_detail
       (upsert_by_ean
          (PyStr.keep PyStr.isdigit (text_field (form req) "product_ean"))
          (text_field (form req) "product_name")
          (text_field (form req) "product_desc")
          (if PyStr.truthy (text_field (form req) "product_image")
           then Some (text_field (form req) "product_image") else None)
          (default [] (parse_tags (form req !! "tags"))) w).2))).
Proof.
  intros Hm Hdb Hean Hname. unfold products_create. rewrite Hm, Hdb.
  cbv zeta.
  destruct (PyStr.keep PyStr.isdigit _) as [|c ean]; [done|].
  destruct (text_field (form req) "product_name") as [|c' name]; [done|].
  simpl. by destruct (upsert_by_ean _ _ _ _ _ _).
Qed.

Lemma upsert_by_ean_static ean name desc image tgs w :
  static (upsert_by_ean ean name desc image tgs w).1 = static w.
Proof. unfold upsert_by_ean. by destruct (find_by_ean _ _). Qed.

Lemma keep_all_chars p s : all_chars p (PyStr.keep p s) = true.
Proof.
  induction s as [|c s IH]; [done|]. simpl.
  destruct (p c) eqn:E; [|done]. simpl. by rewrite E, IH.
Qed.

End CreateFacts.

Import CreateFacts.

(** X6: sending the same create request twice stores what sending it once
    stores: the second request answers with the same id and leaves every
    row as the first one left it (only the id sequence moves on). *)
Theorem products_create_twice (env : Env) (req : Request) (w : World) :
  method req = POST →
  get_db_connection env = Ok () →
  PyStr.keep PyStr.isdigit (text_field (form req) "product_ean") ≠ EmptyString →
  text_field (form req) "product_name" ≠ EmptyString →
  ∃ w1 w2 id,
    products_create env req w = (w1, Ok (redirect (url_products_detail id)))
    ∧ products_create env req w1 = (w2, Ok (redirect (url_products_detail id)))
    ∧ produkter w2 = produkter w1
    ∧ static w2 = static w1.
Proof.
  intros Hm Hdb Hean Hname.
  eexists _, _, _. split; [by apply products_create_valid|].
  rewrite products_create_valid by done.
  match goal with
  | |- context [upsert_by_ean ?a ?b ?c ?d ?e w] =>
      destruct (upsert_by_ean_twice a b c d e w) as [Hid Hrows]
  end.
  rewrite Hid. split; [reflexivity|]. split; [exact Hrows|].
  apply upsert_by_ean_static.
Qed.

Lemma products_create_twice_witness :
  ∃ w1 w2 id,
    products_create sample_env create_fanta sample_world
    = (w1, Ok (redirect (url_products_detail id)))
    ∧ products_create sample_env create_fanta w1
      = (w2, Ok (redirect (url_products_detail id)))
    ∧ produkter w2 = produkter w1
    ∧ static w2 = static w1.
Proof.
  apply (products_create_twice sample_env create_fanta sample_world);
    by vm_compute.
Defined.

(** X7: on a well-formed table, a create that succeeds can be read back:
    the detail page of the id it answers with shows a product with the
    digits of the EAN field and the trimmed name and description of the
    request. *)
Theorem products_create_then_detail (env : Env) (req : Request) (w : World) :
  wf_table w →
  method req = POST →
  get_db_connection env = Ok () →
  PyStr.keep PyStr.isdigit (text_field (form req) "product_ean") ≠ EmptyString →
  text_field (form req) "product_name" ≠ EmptyString →
  ∃ w' id r image_url,
    products_create env req w = (w', Ok (redirect (url_products_detail id)))
    ∧ products_detail env id w' = (w', Ok (detail_page (Some r) image_url None))
    ∧ product_id r = id
    ∧ product_ean r
      = PyStr.keep PyStr.isdigit (text_field (form req) "product_ean")
    ∧ product_name r = text_field (form req) "product_name"
    ∧ product_desc r = text_field (form req) "product_desc".
Proof.
  intros Hwf Hm Hdb Hean Hname.
  rewrite products_create_valid by done.
  set (ean := PyStr.keep PyStr.isdigit (text_field (form req) "product_ean"))
    in *.
  set (name := text_field (form req) "product_name") in *.
  set (desc := text_field (form req) "product_desc").
  match goal with
  | |- context [upsert_by_ean ean name desc ?d ?e w] =>
      set (img := d); set (tgs := e)
  end.
  pose proof (wf_upsert ean name desc img tgs w Hwf) as Hwf'.
  assert (∃ r, r ∈ produkter (upsert_by_ean ean name desc img tgs w).1
               ∧ product_id r = (upsert_by_ean ean name desc img tgs w).2
               ∧ product_ean r = ean ∧ product_name r = name
               ∧ product_desc r = desc)
    as (r & Hin & Hid & He & Hn & Hd).
  { destruct (find_by_ean ean (produkter w)) as [old|] eqn:Hfind.
    - destruct (upsert_by_ean_conflict ean name desc img tgs w old Hfind)
        as (Hid & Hnew & _).
      exists (merge_excluded name desc img tgs old).
      apply find_by_ean_Some in Hnew as [Hin _].
      apply find_by_ean_Some in Hfind as [_ Hoe]. by rewrite Hid.
    - destruct (upsert_by_ean_insert ean name desc img tgs w Hfind)
        as [Hid Hrows]. eexists. split.
      + rewrite Hrows. apply elem_of_app. right.
        apply list_elem_of_singleton. reflexivity.
      + by rewrite Hid. }
  destruct (upsert_by_ean ean name desc img tgs w) as [w' id].
  simpl in *. exists w', id, r. eexists. split; [done|].
  split; [|done].
  unfold products_detail. rewrite Hdb. cbv zeta.
  destruct Hwf' as (Hnd & _). rewrite <- Hid.
  by rewrite (find_by_id_elem _ _ Hnd Hin).
Qed.

Lemma sample_world_wf : wf_table sample_world.
Proof.
  unfold wf_table. simpl. split; [|split].
  - apply (bool_decide_unpack _). by vm_compute.
  - apply (bool_decide_unpack _). by vm_compute.
  - repeat constructor.
Qed.

Lemma products_create_then_detail_witness :
  ∃ w' id r image_url,
    products_create sample_env create_fanta sample_world
    = (w', Ok (redirect (url_products_detail id)))
    ∧ products_detail sample_env id w'
      = (w', Ok (detail_page (Some r) image_url None))
    ∧ product_id r = id
    ∧ product_ean r = "5705550000123"
    ∧ product_name r = "Fanta"
    ∧ product_desc r = "Appelsin".
Proof.
  apply (products_create_then_detail sample_env create_fanta sample_world
           sample_world_wf); by vm_compute.
Defined.

(** X8: what a create request (POST) stores.  Without a digit in the EAN
    field or with a blank name the request is refused before the database
    is asked, and the state stays as it was.  Whenever the request succeeds,
    the row it answers with holds an EAN made of digits only and not empty,
    and a name that is trimmed and not empty. *)
Theorem products_create_rejects_or_cleans (env : Env) (req : Request)
    (w : World) :
  method req = POST →
  let ean := PyStr.keep PyStr.isdigit (text_field (form req) "product_ean") in
  let name := text_field (form req) "product_name" in
  (ean = EmptyString ∨ name = EmptyString →
     products_create env req w
     = (w, Ok (product_form create (Some EAN_og_navn_skal_udfyldes))))
  ∧ (∀ w' id,
       products_create env req w = (w', Ok (redirect (url_products_detail id))) →
       ∃ r, find_by_ean ean (produkter w') = Some r
            ∧ product_id r = id
            ∧ product_ean r = ean
            ∧ str_isdigit (product_ean r) = true
            ∧ product_name r = name
            ∧ name ≠ EmptyString
            ∧ Spec.trimmed name).
Proof.
  intros Hm ean name. split.
  - intros Hbad. unfold products_create. rewrite Hm. cbv zeta.
    fold ean name. by destruct Hbad as [-> | ->]; [|destruct (PyStr.truthy ean)].
  - intros w' id. destruct (decide (ean = EmptyString)) as [He|He].
    { unfold products_create. rewrite Hm. cbv zeta. fold ean. by rewrite He. }
    destruct (decide (name = EmptyString)) as [Hn|Hn].
    { unfold products_create. rewrite Hm. cbv zeta. fold ean name.
      rewrite Hn. by destruct (PyStr.truthy ean). }
    destruct (get_db_connection env) as [[]|e] eqn:Hdb.
    2:{ unfold products_create. rewrite Hm, Hdb. cbv zeta. fold ean name.
        by destruct (negb _ || negb _). }
    rewrite products_create_valid by done. fold ean name.
    match goal with
    | |- context [upsert_by_ean ean name ?c ?d ?e w] =>
        set (desc := c); set (img := d); set (tgs := e)
    end.
    intros [= <- <-].
    assert (∃ r, find_by_ean ean
                   (produkter (upsert_by_ean ean name desc img tgs w).1) = Some r
                 ∧ product_id r = (upsert_by_ean ean name desc img tgs w).2
                 ∧ product_ean r = ean ∧ product_name r = name)
      as (r & Hr & Hid & Hre & Hrn).
    { destruct (find_by_ean ean (produkter w)) as [old|] eqn:Hfind.
      - destruct (upsert_by_ean_conflict ean name desc img tgs w old Hfind)
          as (Hid & Hnew & _).
        exists (merge_excluded name desc img tgs old).
        apply find_by_ean_Some in Hfind as [_ Hoe]. by rewrite Hid.
      - destruct (upsert_by_ean_insert ean name desc img tgs w Hfind)
          as [Hid Hrows]. eexists. split.
        + rewrite Hrows, find_by_ean_app, Hfind, find_by_ean_cons.
          by rewrite decide_True.
        + by rewrite Hid. }
    exists r. split; [done|]. split; [done|]. split; [done|].
    split.
    { rewrite Hre. unfold str_isdigit, ean. rewrite keep_all_chars.
      fold ean. by destruct ean. }
    split; [done|]. split; [done|]. apply PyStrFacts.strip_trimmed.
Qed.

Lemma products_create_rejects_or_cleans_witness :
  products_create sample_env
    (post [("product_ean", "abc"); ("product_name", "Cola")]) sample_world
  = (sample_world, Ok (product_form create (Some EAN_og_navn_skal_udfyldes))).
Proof.
  destruct (products_create_rejects_or_cleans sample_env
              (post [("product_ean", "abc"); ("product_name", "Cola")])
              sample_world) as [Hrej _]; [reflexivity|].
  apply Hrej. left. by vm_compute.
Defined.

(** X9: ids are not handed out twice.  On a well-formed table, after a
    product was deleted, a create of an EAN that no remaining row holds
    answers with an id above every id the table held before the delete,
    the id of the deleted product included. *)
Theorem products_create_fresh_id (env : Env) (pid : Z) (dreq req : Request)
    (w : World) :
  wf_table w →
  get_db_connection env = Ok () →
  method req = POST →
  PyStr.keep PyStr.isdigit (text_field (form req) "product_ean") ≠ EmptyString →
  text_field (form req) "product_name" ≠ EmptyString →
  find_by_ean (PyStr.keep PyStr.isdigit (text_field (form req) "product_ean"))
    (delete_product pid (produkter w)) = None →
  ∃ w2 id,
    products_create env req (products_delete env pid dreq w).1
    = (w2, Ok (redirect (url_products_detail id)))
    ∧ Forall (λ r, product_id r < id) (produkter w)
    ∧ find_by_id id (produkter w) = None.
Proof.
  intros (Hnd & _ & Hseq) Hdb Hm Hean Hname Hfree.
  unfold products_delete. rewrite Hdb. simpl fst.
  rewrite products_create_valid by done.
  match goal with
  | |- context [upsert_by_ean ?a ?b ?c ?d ?e ?w1] =>
      destruct (upsert_by_ean_insert a b c d e w1 Hfree) as [Hid _]
  end.
  eexists _, _. split; [reflexivity|]. rewrite Hid. simpl.
  split; [done|].
  apply Invariant.find_by_id_None.
  intros (r & Heq & Hin)%list_elem_of_fmap.
  rewrite Forall_forall in Hseq. specialize (Hseq r Hin). simpl in Hseq. lia.
Qed.

Lemma products_create_fresh_id_witness :
  ∃ w2 id,
    products_create sample_env create_again
      (products_delete sample_env 1 (post []) sample_world).1
    = (w2, Ok (redirect (url_products_detail id)))
    ∧ Forall (λ r, product_id r < id) (produkter sample_world)
    ∧ find_by_id id (produkter sample_world) = None.
Proof.
  apply (products_create_fresh_id sample_env 1 (post []) create_again
           sample_world sample_world_wf); by vm_compute.
Defined.

(** ** The barcode artifact and the pages that show it *)
Module ArtifactFacts.

Lemma clean_ean_keep s : clean_ean (PyStr.keep PyStr.isdigit s) = clean_ean s.
Proof. by rewrite !clean_ean_digits, keep_idemp. Qed.

Lemma save_barcode_simple_by_clean env s1 s2 d :
  clean_ean s1 = clean_ean s2 →
  save_barcode_simple env s1 d = save_barcode_simple env s2 d.
Proof. intros H. unfold save_barcode_simple. by rewrite H. Qed.



End ArtifactFacts.

Import ArtifactFacts.

(** X10: the artifact depends on the digits of the input only: whatever
    stands between the digits (spaces, dots, dashes, letters), two inputs
    with the same digits get the same answer and the same effect on the
    static directory; in particular the input and its digits do. *)
Theorem save_barcode_simple_digits_only (env : Env) (s1 s2 : string)
    (d : Disk) :
  PyStr.keep PyStr.isdigit s1 = PyStr.keep PyStr.isdigit s2 →
  save_barcode_simple env s1 d = save_barcode_simple env s2 d
  ∧ save_barcode_simple env (PyStr.keep PyStr.isdigit s1) d
    = save_barcode_simple env s1 d.
Proof.
  intros H. split.
  - apply save_barcode_simple_by_clean. by rewrite !clean_ean_digits.
  - apply save_barcode_simple_by_clean, clean_ean_keep.
Qed.

Lemma save_barcode_simple_digits_only_witness :
  save_barcode_simple sample_env "570-1234.567890 (DK)" empty_disk
  = save_barcode_simple sample_env "5701234567890" empty_disk.
Proof.
  apply (save_barcode_simple_digits_only sample_env "570-1234.567890 (DK)"
           "5701234567890" empty_disk). by vm_compute.
Defined.

(** X11: the resolver never removes anything.  Every file that was there
    stays; the only paths it can add are the barcode directory and the one
    image named after the digits; it renders at most once; and when
    python-barcode refuses the payload no image is added and nothing is
    recorded as rendered. *)
Theorem save_barcode_simple_only_adds (env : Env) (s : string) (d : Disk) :
  let out := save_barcode_simple env s d in
  let png := path_join barcode_dir
               ("barcode " +:+ PyStr.keep PyStr.isdigit s +:+ ".png") in
  files d ⊆ files out.1
  ∧ files out.1 ⊆ files d ∪ {[barcode_dir; png]}
  ∧ (renders out.1 = renders d
     ∨ renders out.1 = PyStr.prefix 12 (PyStr.keep PyStr.isdigit s) :: renders d)
  ∧ (∀ e, out.2 = Raise e →
       renders out.1 = renders d ∧ files out.1 ⊆ files d ∪ {[barcode_dir]}).
Proof.
  cbv zeta.
  destruct (Nat.ltb_spec (String.length (PyStr.keep PyStr.isdigit s)) 12)
    as [Hlt|Hge].
  { unfold save_barcode_simple. rewrite clean_ean_digits.
    apply Nat.ltb_lt in Hlt. rewrite Hlt. simpl.
    split; [done|]. split; [set_solver|]. split; [by left|done]. }
  rewrite save_barcode_simple_long by done. cbv zeta.
  destruct (path_exists _ _).
  - simpl. split; [set_solver|]. split; [set_solver|]. split; [by left|done].
  - destruct (ean13_accepts env _); simpl.
    + split; [set_solver|]. split; [set_solver|]. split; [by right|done].
    + split; [set_solver|]. split; [set_solver|]. split; [by left|].
      intros e _. split; [done|set_solver].
Qed.



(** ** The list and the search *)
Module SearchFacts.
Import PyStr Spec PyStrFacts.

#[global] Instance id_le_trans : Transitive id_le.
Proof. intros a b c. unfold id_le. lia. Qed.

#[global] Instance id_le_total : Total id_le.
Proof. intros a b. unfold id_le. lia. Qed.

Lemma order_by_product_id_sorted rows :
  StronglySorted id_le (order_by_product_id rows).
Proof. apply StronglySorted_merge_sort; apply _. Qed.

Lemma order_by_product_id_perm rows : order_by_product_id rows ≡ₚ rows.
Proof. apply merge_sort_Permutation. Qed.

Lemma overlaps_spec tgs terms :
  overlaps tgs terms = true ↔ ∃ l t, tgs = Some l ∧ t ∈ l ∧ t ∈ terms.
Proof.
  destruct tgs as [l|]; simpl.
  - rewrite bool_decide_eq_true, Exists_exists. split.
    + intros (t & ? & ?). by exists l, t.
    + intros (l' & t & [= <-] & ? & ?). by exists t.
  - split; [done|]. by intros (? & ? & ? & _).
Qed.

(** *** Letter case *)

Lemma lower_char_not_comma c : c ≠ ","%char → lower_char c ≠ ","%char.
Proof. intros Hc Hl. by apply Hc, lower_char_comma. Qed.

Lemma split_lower s : split "," (lower s) = lower <$> split "," s.
Proof.
  induction s as [|c s IH]; [done|]. simpl.
  destruct (decide (c = ","%char)) as [->|Hc].
  - rewrite decide_True by done. by rewrite IH.
  - rewrite decide_False by (by apply lower_char_not_comma).
    rewrite IH. by destruct (split "," s).
Qed.

Lemma lstrip_lower s : lstrip (lower s) = lower (lstrip s).
Proof.
  induction s as [|c s IH]; [done|]. simpl.
  rewrite isspace_lower_char. by destruct (isspace c).
Qed.

Lemma rstrip_lower s : rstrip (lower s) = lower (rstrip s).
Proof.
  induction s as [|c s IH]; [done|]. simpl. rewrite IH.
  destruct (rstrip s); simpl; [|done].
  rewrite isspace_lower_char. by destruct (isspace c).
Qed.

Lemma strip_lower s : strip (lower s) = lower (strip s).
Proof. unfold strip. by rewrite lstrip_lower, rstrip_lower. Qed.

Lemma truthy_lower s : truthy (lower s) = truthy s.
Proof. by destruct s. Qed.

(** The terms of a query do not depend on its letter case. *)
Lemma search_terms_lower q : search_terms (lower q) = search_terms q.
Proof.
  unfold search_terms. rewrite split_lower.
  induction (split "," q) as [|t ts IH]; [done|].
  rewrite fmap_cons.
  destruct (decide (strip t = EmptyString)) as [E|E].
  - rewrite (filter_cons_False _ t) by tauto.
    rewrite filter_cons_False; [done|].
    rewrite strip_lower, E. simpl. tauto.
  - rewrite (filter_cons_True _ t) by done.
    rewrite filter_cons_True by (by rewrite strip_lower, lower_empty).
    rewrite !fmap_cons, IH. by rewrite strip_lower, lower_idemp.
Qed.

Lemma elem_of_search_terms q t :
  t ∈ search_terms q ↔
  ∃ tok, tok ∈ split "," q ∧ strip tok ≠ EmptyString ∧ t = lower (strip tok).
Proof.
  unfold search_terms. rewrite list_elem_of_fmap. split.
  - intros (tok & -> & [? ?]%list_elem_of_filter). by exists tok.
  - intros (tok & ? & ? & ->). exists tok. split; [done|].
    by apply list_elem_of_filter.
Qed.

(** *** [int] on the id field *)

Lemma isdecimal_isdigit c : isdecimal c = true → isdigit c = true.
Proof. by_ascii_cases c. Qed.












End SearchFacts.

Import SearchFacts.

(** X13: the product list, the database being reachable, shows every row
    of the table exactly once, in ascending order of [product_id], and
    leaves the state as it was; when the database cannot be reached the list
    is empty and carries the error. *)
Theorem products_list_sorted (env : Env) (w : World) :
  match get_db_connection env with
  | Ok _ =>
      ∃ rows,
        products_list env w = (w, Ok (products_page (listing <$> rows) None))
        ∧ rows ≡ₚ produkter w
        ∧ StronglySorted id_le rows
        ∧ StronglySorted Z.le (listing_id <$> (listing <$> rows))
  | Raise e =>
      products_list env w = (w, Ok (products_page [] (Some (Databasefejl e))))
  end.
Proof.
  unfold products_list. destruct (get_db_connection env); [|done].
  exists (order_by_product_id (produkter w)). split; [done|].
  split; [apply order_by_product_id_perm|].
  split; [apply order_by_product_id_sorted|].
  rewrite <- list_fmap_compose.
  induction (order_by_product_id_sorted (produkter w)) as [|r rows _ IH Hr];
    [constructor|].
  rewrite fmap_cons. constructor; [done|].
  apply Forall_fmap. eapply Forall_impl; [exact Hr|]. done.
Qed.

(** X14: a search by tags.  For a POST request whose id field is not a
    number and whose tags field holds at least one term, the database being
    reachable, the result lists exactly the products that have one of the
    terms among their tags (products without tags never), each once, in
    ascending order of [product_id]; the terms are the trimmed, lower-cased,
    non-empty comma-separated pieces of the field; the state is unchanged. *)
Theorem search_by_tags (env : Env) (req : Request) (w : World) :
  method req = POST →
  str_isdigit (text_field (form req) "product_id") = false →
  search_terms (text_field (form req) "tags") ≠ [] →
  get_db_connection env = Ok () →
  let terms := search_terms (text_field (form req) "tags") in
  ∃ found,
    search env req w = (w, Ok (search_results (listing <$> found)))
    ∧ found ≡ₚ filter (λ r, overlaps (tags r) terms) (produkter w)
    ∧ StronglySorted id_le found
    ∧ (∀ r, r ∈ found ↔
            r ∈ produkter w ∧ ∃ l t, tags r = Some l ∧ t ∈ l ∧ t ∈ terms)
    ∧ (∀ t, t ∈ terms ↔
            ∃ tok, tok ∈ PyStr.split "," (text_field (form req) "tags")
                   ∧ PyStr.strip tok ≠ EmptyString
                   ∧ t = PyStr.lower (PyStr.strip tok)).
Proof.
  intros Hm Hid Hterms Hdb terms.
  exists (order_by_product_id
            (filter (λ r, overlaps (tags r) terms) (produkter w))).
  split.
  { unfold search. rewrite Hm. cbv zeta. rewrite Hid. fold terms.
    destruct (text_field (form req) "tags") as [|c q] eqn:Hq; [done|].
    simpl PyStr.truthy. cbv iota.
    destruct terms as [|t ts] eqn:Et; [done|]. by rewrite Hdb. }
  split; [apply order_by_product_id_perm|].
  split; [apply order_by_product_id_sorted|].
  split.
  - intros r. rewrite (order_by_product_id_perm _), list_elem_of_filter.
    rewrite Is_true_true, overlaps_spec. tauto.
  - intros t. apply elem_of_search_terms.
Qed.

Lemma search_by_tags_witness :
  ∃ found,
    search sample_env (post [("tags", " KIKS , Cola ")]) sample_world
    = (sample_world, Ok (search_results (listing <$> found)))
    ∧ found ≡ₚ [cola; kiks]
    ∧ StronglySorted id_le found.
Proof.
  destruct (search_by_tags sample_env (post [("tags", " KIKS , Cola ")])
              sample_world) as (found & Hresp & Hperm & Hsorted & _);
    [by vm_compute..|].
  exists found. split; [exact Hresp|]. split; [|exact Hsorted].
  etrans; [exact Hperm|]. by vm_compute.
Defined.

(** X15: the search by tags ignores the letter case of the query: two POST
    requests with the same id field whose tags fields differ in letter case
    only get the same answer. *)
Theorem search_ignores_case (env : Env) (req1 req2 : Request) (w : World)
    (q1 q2 : string) :
  method req1 = POST →
  method req2 = POST →
  form req1 !! "product_id" = form req2 !! "product_id" →
  form req1 !! "tags" = Some q1 →
  form req2 !! "tags" = Some q2 →
  PyStr.lower q1 = PyStr.lower q2 →
  search env req1 w = search env req2 w.
Proof.
  intros Hm1 Hm2 Hid Hq1 Hq2 Hlow.
  assert (PyStr.lower (PyStr.strip q1) = PyStr.lower (PyStr.strip q2)) as Hs
    by (by rewrite <- !strip_lower, Hlow).
  unfold search, text_field. rewrite Hm1, Hm2, Hid, Hq1, Hq2. simpl PyStr.or_empty.
  cbv zeta.
  rewrite <- (truthy_lower (PyStr.strip q1)), <- (truthy_lower (PyStr.strip q2)).
  rewrite <- (search_terms_lower (PyStr.strip q1)).
  rewrite <- (search_terms_lower (PyStr.strip q2)).
  by rewrite Hs.
Qed.

Lemma search_ignores_case_witness :
  search sample_env (post [("tags", "COLA")]) sample_world
  = search sample_env (post [("tags", "cola")]) sample_world.
Proof.
  apply (search_ignores_case sample_env (post [("tags", "COLA")])
           (post [("tags", "cola")]) sample_world "COLA" "cola");
    by vm_compute.
Defined.



(** ** Edit and photo *)
Module EditFacts.

Lemma ean_taken_true pid ean rows :
  ean_taken pid ean rows = true ↔
  ∃ other, other ∈ rows ∧ product_id other ≠ pid ∧ product_ean other = ean.
Proof.
  unfold ean_taken. rewrite existsb_exists. split.
  - intros (other & Hin & [H1 H2]%andb_true_iff).
    exists other. apply list_elem_of_In in Hin.
    by apply bool_decide_eq_true in H1, H2.
  - intros (other & Hin & H1 & H2). exists other.
    split; [by apply list_elem_of_In|].
    by rewrite !bool_decide_eq_true_2.
Qed.

(** What a row can lose or gain when a photo is stored for [pid]. *)
Lemma photo_frame_refl pid (rows : list Product) :
  Forall2 (λ a b, product_id b = product_id a
                  ∧ product_ean b = product_ean a
                  ∧ product_name b = product_name a
                  ∧ product_desc b = product_desc a
                  ∧ stock_qty b = stock_qty a
                  ∧ tags b = tags a
                  ∧ (product_id a ≠ pid → product_image b = product_image a))
    rows rows.
Proof. induction rows as [|r rows IH]; constructor; done. Qed.

Lemma update_image_frame pid path (rows : list Product) :
  Forall2 (λ a b, product_id b = product_id a
                  ∧ product_ean b = product_ean a
                  ∧ product_name b = product_name a
                  ∧ product_desc b = product_desc a
                  ∧ stock_qty b = stock_qty a
                  ∧ tags b = tags a
                  ∧ (product_id a ≠ pid → product_image b = product_image a))
    rows (update_image pid path rows).
Proof.
  unfold update_image, update_where_id.
  induction rows as [|r rows IH]; [constructor|].
  rewrite fmap_cons. constructor; [|exact IH].
  case_decide as Hr; [|done]. simpl. by repeat split.
Qed.

End EditFacts.

Import EditFacts.

(** X17: an edit request (POST) on an existing product, the database being
    reachable, is refused exactly when another product holds the EAN it
    sends: then the form comes back with the error of the unique index and
    nothing is changed.  Otherwise it succeeds and can be read back: the row
    holds the trimmed EAN, name and description of the request (a blank one
    as well: the edit checks no field), and every other product keeps its
    row. *)
Theorem products_edit_refused_or_stored (env : Env) (pid : Z) (req : Request)
    (w : World) (r : Product) :
  method req = POST →
  find_by_id pid (produkter w) = Some r →
  get_db_connection env = Ok () →
  let ean := text_field (form req) "product_ean" in
  (ean_taken pid ean (produkter w) = true ↔
     ∃ other, other ∈ produkter w ∧ product_id other ≠ pid
              ∧ product_ean other = ean)
  ∧ if ean_taken pid ean (produkter w) then
      products_edit env pid req w
      = (w, Ok (product_form edit (Some (Databasefejl UniqueViolation))))
    else
      ∃ w' r',
        products_edit env pid req w
        = (w', Ok (redirect (url_products_detail pid)))
        ∧ find_by_id pid (produkter w') = Some r'
        ∧ product_ean r' = ean
        ∧ product_name r' = text_field (form req) "product_name"
        ∧ product_desc r' = text_field (form req) "product_desc"
        ∧ length (produkter w') = length (produkter w)
        ∧ ∀ pid', pid' ≠ pid →
            find_by_id pid' (produkter w') = find_by_id pid' (produkter w).
Proof.
  intros Hm Hr Hdb ean. split; [apply ean_taken_true|].
  unfold products_edit. rewrite Hdb, Hr, Hm. fold ean.
  destruct (ean_taken pid ean (produkter w)) eqn:Ht.
  - unfold update_fields. rewrite Hr, Ht.
    by rewrite bool_decide_eq_true_2 by eauto.
  - rewrite update_fields_free by done.
    eexists _, _. split; [reflexivity|]. simpl produkter. split.
    { rewrite find_by_id_update_where by done. rewrite decide_True by done.
      by rewrite Hr. }
    split; [done|]. split; [done|]. split; [done|].
    split; [apply update_where_id_length|].
    intros pid' Hne. rewrite find_by_id_update_where by done.
    by rewrite decide_False.
Qed.

Lemma products_edit_refused_or_stored_witness :
  products_edit sample_env 2
    (post [("product_ean", " 5701234567890 "); ("product_name", "Kiks")])
    sample_world
  = (sample_world, Ok (product_form edit (Some (Databasefejl UniqueViolation))))
  ∧ ∃ w' r',
      products_edit sample_env 2
        (post [("product_ean", " 5700000000017 "); ("product_name", "")])
        sample_world
      = (w', Ok (redirect (url_products_detail 2)))
      ∧ find_by_id 2 (produkter w') = Some r'
      ∧ product_ean r' = "5700000000017"
      ∧ product_name r' = "".
Proof.
  split.
  - destruct (products_edit_refused_or_stored sample_env 2
                (post [("product_ean", " 5701234567890 ");
                       ("product_name", "Kiks")]) sample_world kiks)
      as [_ H]; [by vm_compute..|]. exact H.
  - destruct (products_edit_refused_or_stored sample_env 2
                (post [("product_ean", " 5700000000017 ");
                       ("product_name", "")]) sample_world kiks)
      as [_ H]; [by vm_compute..|].
    destruct H as (w' & r' & Hresp & Hfind & He & Hn & _).
    exists w', r'. split; [exact Hresp|]. split; [exact Hfind|].
    split; [exact He|exact Hn].
Defined.

(** X18: what the photo handler of a product can change, whatever the
    request, the database and the end of the capture.  No row is added or
    removed; every row keeps its id, EAN, name, description, stock and tags,
    and the rows of other products keep their image too; no file is
    removed and the id sequence stays.  As the file stands ([cv2] is not
    bound where the capture runs) no row changes at all and the handler
    never answers with a redirect: with the database reachable it creates
    the two static directories and fails with [NameError].  Whenever the
    handler does answer with a redirect, it is the one to the detail page
    of the product, and the rows of that id hold as [product_image] the
    relative path of a photo that exists under the static directory. *)
Theorem products_photo_edit_frame (env : Env) (pid : Z) (req : Request)
    (w : World) :
  let out := products_photo_edit env pid req w in
  Forall2 (λ a b, product_id b = product_id a
                  ∧ product_ean b = product_ean a
                  ∧ product_name b = product_name a
                  ∧ product_desc b = product_desc a
                  ∧ stock_qty b = stock_qty a
                  ∧ tags b = tags a
                  ∧ (product_id a ≠ pid → product_image b = product_image a))
    (produkter w) (produkter out.1)
  ∧ product_id_seq out.1 = product_id_seq w
  ∧ files (static w) ⊆ files (static out.1)
  ∧ (capture_session env = capture_unbound →
       produkter out.1 = produkter w
       ∧ (∀ target, out.2 ≠ Ok (redirect target))
       ∧ (get_db_connection env = Ok () →
            out = (with_static (ensure_dirs (static w)) w,
                   Raise (NameError "cv2"))))
  ∧ (∀ target, out.2 = Ok (redirect target) →
       target = url_products_detail pid
       ∧ Forall (λ b, product_id b = pid →
                      ∃ rel, product_image b = Some rel
                             ∧ path_join static_folder rel
                               ∈ files (static out.1))
           (produkter out.1)).
Proof.
  cbv zeta. unfold products_photo_edit, capture_photo_interactive_to_static.
  destruct (get_db_connection env) as [[]|e] eqn:Hdb.
  2:{ simpl. split; [apply photo_frame_refl|]. split; [done|].
      split; [done|]. split; [done|]. done. }
  destruct (capture_session env) eqn:Hcap.
  - simpl. split; [apply photo_frame_refl|]. split; [done|].
    split; [set_solver|]. split; [done|]. done.
  - simpl. split; [apply photo_frame_refl|]. split; [done|].
    split; [set_solver|]. split; [done|]. done.
  - match goal with
    | |- context [PyStr.truthy ?x] =>
        assert (PyStr.truthy x = true) as -> by done
    end.
    simpl negb. cbv iota. simpl.
    split; [apply update_image_frame|]. split; [done|].
    split; [set_solver|]. split; [done|].
    intros target [= <-]. split; [done|].
    unfold update_image. apply update_where_id_Forall.
    intros b _. eexists. split; [reflexivity|]. set_solver.
Qed.

(** The photo handler where [cv2] resolves and the capture writes a photo:
    the image of Kiks becomes the path of the file that was written. *)
Example products_photo_edit_in_studio :
  ∃ w',
    products_photo_edit studio_env 2 (get []) sample_world
    = (w', Ok (redirect (url_products_detail 2)))
    ∧ find_by_id 2 (produkter w')
      = Some (set_product_image
                (Some "product_img/product_5709876543210.jpg") kiks)
    ∧ product_image <$> find_by_id 2 (produkter w')
      = Some (Some "product_img/product_5709876543210.jpg")
    ∧ "static/product_img/product_5709876543210.jpg" ∈ files (static w').
Proof.
  eexists. split; [by vm_compute|]. split; [by vm_compute|].
  split; [by vm_compute|]. simpl. set_solver.
Qed.

(** X19: the list, the detail page and the search only read: whatever the
    request and the surroundings, they leave the table, the sequence and the
    static directory as they were, and they answer with a page (a database
    error is put on the page, never raised). *)
Theorem read_handlers_change_nothing (env : Env) (pid : Z) (req : Request)
    (w : World) :
  (∃ page, products_list env w = (w, Ok page))
  ∧ (∃ page, products_detail env pid w = (w, Ok page))
  ∧ (∃ page, search env req w = (w, Ok page)).
Proof.
  refine (conj _ (conj _ _)).
  - unfold products_list. destruct (get_db_connection env); eauto.
  - unfold products_detail. destruct (get_db_connection env); eauto.
  - unfold search. destruct (method req); [eauto|]. cbv zeta.
    destruct (str_isdigit _).
    + destruct (get_db_connection env); [|eauto].
      destruct (PyStr.int _); eauto.
    + destruct (PyStr.truthy _); [|eauto].
      destruct (search_terms _); [eauto|].
      destruct (get_db_connection env); eauto.
Qed.

(** ** The scan handlers *)
Module ScanFacts.

Lemma update_quantity_delta_only_stock pid delta (rows : list Product) :
  Forall2 (λ a b, b = set_stock_qty (stock_qty b) a)
    rows (update_quantity_delta pid delta rows).
Proof.
  unfold update_quantity_delta, update_where_id.
  induction rows as [|r rows IH]; [constructor|].
  rewrite fmap_cons. constructor; [|done].
  case_decide; [done|]. by destruct r.
Qed.

Lemma only_stock_refl (rows : list Product) :
  Forall2 (λ a b, b = set_stock_qty (stock_qty b) a) rows rows.
Proof. induction rows as [|r rows IH]; constructor; [by destruct r|done]. Qed.

End ScanFacts.

Import ScanFacts.

(** X20: what the scan handlers can change, whatever the flag, the request
    and the end of the camera session.  The scan for the create form
    changes no row.  The scan-and-increment changes nothing of a row but its
    [stock_qty]: no row is added or removed, and every row keeps its id,
    EAN, name, description, image and tags.  Neither advances the id
    sequence. *)
Theorem scan_handlers_frame (env : Env) (req : Request) (w : World) :
  produkter (products_scan env req w).1 = produkter w
  ∧ product_id_seq (products_scan env req w).1 = product_id_seq w
  ∧ Forall2 (λ a b, b = set_stock_qty (stock_qty b) a)
      (produkter w) (produkter (products_scan_increment env req w).1)
  ∧ product_id_seq (products_scan_increment env req w).1 = product_id_seq w.
Proof.
  assert (produkter (products_scan env req w).1 = produkter w
          ∧ product_id_seq (products_scan env req w).1 = product_id_seq w)
    as [H1 H2].
  { unfold products_scan, read_barcode_from_camera.
    destruct (ENABLE_CAMERA env); [|done]. simpl negb. cbv iota.
    destruct (scan_session env) as [e|ean]; [done|].
    destruct (PyStr.truthy_opt ean); [|done]. simpl negb. cbv iota.
    destruct (_ <? _)%nat; [done|].
    by destruct (save_barcode_simple _ _ _) as [d [|e]]. }
  split; [done|]. split; [done|].
  unfold products_scan_increment, read_barcode_from_camera.
  destruct (ENABLE_CAMERA env); [|split; [apply only_stock_refl|done]].
  simpl negb. cbv iota.
  destruct (scan_session env) as [e|ean]; [split; [apply only_stock_refl|done]|].
  destruct (PyStr.truthy_opt ean); [|split; [apply only_stock_refl|done]].
  simpl negb. cbv iota.
  destruct (_ <? _)%nat; [split; [apply only_stock_refl|done]|].
  destruct (get_db_connection env); [|split; [apply only_stock_refl|done]].
  destruct (find_by_ean _ _); [|split; [apply only_stock_refl|done]].
  split; [|done]. simpl. apply update_quantity_delta_only_stock.
Qed.
